(** * Angular project generator: specification-to-artifact engine

    A shallow embedding of the generators of [src/createproj.ts] and of the
    validators-based generator of [src/unnamed/part_001], followed by the
    properties of the routing table, the validation rule compiler, the field
    markup renderer, the shell assembler and the orchestrators.

    Conventions of the embedding.
    - A JavaScript string is a [string] of bytes.  Case mapping acts on the
      ASCII letters only, which is what [toLowerCase]/[toUpperCase] do on the
      identifier-like names the generator is fed; other bytes are kept.
    - An optional property ([required?: boolean], [regex?: string], ...) is
      an [option]; JavaScript truthiness is written out for each type.
    - A [number] read from the JSON specification is an integer [Z]; it is
      printed in decimal, as [String(n)] does for the integers in use.
    - Code that can throw returns an [outcome]; code that writes files is a
      function on a [World], the files written so far. *)

From Stdlib Require Import ZArith Ascii Sorted.
From stdpp Require Import base option list strings pretty gmap.

Local Open Scope Z_scope.

(** ** JavaScript strings *)

Module JS.

(** The double quote and the line feed, which the templates contain. *)
Definition dq : string := String (ascii_of_nat 34) EmptyString.
Definition nl : string := String (ascii_of_nat 10) EmptyString.

Definition isUpper (c : ascii) : bool :=
  let n := nat_of_ascii c in (Nat.leb 65 n && Nat.leb n 90)%bool.
Definition isLower (c : ascii) : bool :=
  let n := nat_of_ascii c in (Nat.leb 97 n && Nat.leb n 122)%bool.

Definition charToLower (c : ascii) : ascii :=
  if isUpper c then ascii_of_nat (nat_of_ascii c + 32) else c.
Definition charToUpper (c : ascii) : ascii :=
  if isLower c then ascii_of_nat (nat_of_ascii c - 32) else c.

(** [s.toLowerCase()] and [s.toUpperCase()], on the letters of the ASCII
    alphabet: on a string of ASCII characters they are the case mappings of
    JavaScript; what is specific to such strings is stated for them only. *)
Fixpoint toLowerCase (s : string) : string :=
  match s with
  | EmptyString => EmptyString
  | String c s' => String (charToLower c) (toLowerCase s')
  end.
Fixpoint toUpperCase (s : string) : string :=
  match s with
  | EmptyString => EmptyString
  | String c s' => String (charToUpper c) (toUpperCase s')
  end.

(** [s.charAt(0)] is the empty string on the empty string;
    [s.slice(1)] drops the first character. *)
Definition charAt0 (s : string) : string :=
  match s with
  | EmptyString => EmptyString
  | String c _ => String c EmptyString
  end.
Definition slice1 (s : string) : string :=
  match s with
  | EmptyString => EmptyString
  | String _ s' => s'
  end.

(** [l.join(sep)]. *)
Fixpoint join (sep : string) (l : list string) : string :=
  match l with
  | [] => ""
  | [x] => x
  | x :: l' => x +:+ sep +:+ join sep l'
  end.

(** [s.split(sep)] for a one-character separator: never empty. *)
Fixpoint split (sep : ascii) (s : string) : list string :=
  match s with
  | EmptyString => [""]
  | String c s' =>
      if Ascii.eqb c sep then "" :: split sep s'
      else match split sep s' with
           | w :: ws => String c w :: ws
           | [] => [String c ""]
           end
  end.

(** Truthiness of an optional boolean and of an optional string. *)
Definition truthyBool (b : option bool) : bool :=
  match b with Some true => true | _ => false end.
Definition truthyString (s : option string) : bool :=
  match s with Some (String _ _) => true | _ => false end.

(** [a || b] on an optional string [a]. *)
Definition orElse (a : option string) (b : string) : string :=
  match a with Some (String c s) => String c s | _ => b end.

(** What interpolating an optional string that is known to be truthy
    prints; on a falsy one the templates never interpolate it. *)
Definition text (s : option string) : string := default "" s.

(** [`${n}`] for an integer that a JavaScript number holds exactly and
    prints in decimal digits. *)
Definition numberToString (n : Z) : string := pretty n.

(** Whether [needle] starts [s], occurs in it, and how many times. *)
Fixpoint startsWith (needle s : string) : bool :=
  match needle, s with
  | EmptyString, _ => true
  | String a n', String b s' => Ascii.eqb a b && startsWith n' s'
  | String _ _, EmptyString => false
  end.
Fixpoint occurrences (needle s : string) : nat :=
  match s with
  | EmptyString => 0%nat
  | String _ s' =>
      ((if startsWith needle s then 1 else 0) + occurrences needle s')%nat
  end.
Definition includes (needle s : string) : bool :=
  negb (Nat.eqb (occurrences needle s) 0).

(** A value that was returned, or the exception that was thrown. *)
Inductive error : Type :=
| TypeError (what : string)
| ExecError (command : string)
| FileError (path : string).

Inductive outcome (A : Type) : Type :=
| Returned (a : A)
| Thrown (e : error).
Global Arguments Returned {A} a.
Global Arguments Thrown {A} e.

End JS.
Export JS.

(** ** The specification document

    The three interface declarations of the sources describe one JSON
    document (see [src/spec.json]); the records below carry every property
    any of them names. *)

Inductive DefaultValue : Type :=
| DefaultString (s : string)
| DefaultNumber (n : Z)
| DefaultBoolean (b : bool).

Record Validations : Type := {
  v_required : option bool;
  v_minLength : option Z;
  v_maxLength : option Z;
  v_regex : option string;
  v_range : option (Z * Z);
  v_defaultValue : option DefaultValue
}.

Record Field : Type := {
  field_name : string;
  field_type : string;
  field_required : option bool;
  field_regex : option string;
  field_options : option (list string);
  field_validationMessage : option string;
  field_validations : option Validations
}.

Record Component : Type := {
  comp_name : string;
  comp_fields : list Field;
  comp_menuName : option string;
  comp_buttons : list string
}.

Inductive MenuType : Type := horizontal | vertical.

Record Specification : Type := {
  projectName : string;
  components : list Component;
  menuType : MenuType;
  footerContent : option string
}.

(** The column layouts the prompt of [main] offers: 2, 3 or 4 columns. *)
Inductive ColumnLayout : Type := Columns2 | Columns3 | Columns4.

Definition columns (c : ColumnLayout) : Z :=
  match c with Columns2 => 2 | Columns3 => 3 | Columns4 => 4 end.

(** ** The file system the generators write to

    Regular files only, keyed by the path the program passes; a directory is
    present through the files below it.  [project] holds the source files a
    ts-morph [Project] has created in memory and not saved yet. *)

Record World : Type := {
  files : gmap string string;
  project : gmap string string
}.

(** [under dir path]: [path] starts with [dir/].  For paths without an
    empty, [.] or [..] segment this is to lie below the directory. *)
Definition under (dir path : string) : bool := startsWith (dir +:+ "/") path.

(** [fs.emptyDirSync(dir)]: every file below [dir] is deleted. *)
Definition emptyDirSync (dir : string) (w : World) : World :=
  {| files := filter (λ kv, under dir kv.1 = false) (files w);
     project := project w |}.

(** [fs.writeFileSync(path, content)], into a directory that exists: the
    directory of every file the generators write was created by
    [fs.ensureDirSync] when the names of the components are plain names. *)
Definition writeFileSync (path content : string) (w : World) : World :=
  {| files := <[path := content]> (files w); project := project w |}.

(** [new Project()], [project.createSourceFile(path, text, {overwrite: true})]
    and [project.saveSync()], which writes every source file created. *)
Definition newProject (w : World) : World :=
  {| files := files w; project := ∅ |}.
Definition createSourceFile (path content : string) (w : World) : World :=
  {| files := files w; project := <[path := content]> (project w) |}.
Definition saveSync (w : World) : World :=
  {| files := project w ∪ files w; project := project w |}.

(** ** [src/createproj.ts]: the template-based generator *)

Module CreateProj.

(** [toTitleCase(text)], lines 659-664. *)
Definition titleWord (word : string) : string :=
  toUpperCase (charAt0 word) +:+ toLowerCase (slice1 word).
Definition toTitleCase (text : string) : string :=
  join " " (map titleWord (split " " text)).

(** [generateAppRoutingModuleContent(components)], lines 101-134.
    [components[0].name] throws on an empty list. *)
Definition importLine (component : Component) : string :=
  "import { " +:+ comp_name component +:+ "Component } from './" +:+
  toLowerCase (comp_name component) +:+ "/" +:+
  toLowerCase (comp_name component) +:+ ".component';".

Definition routeLine (component : Component) : string :=
  "{ path: '" +:+ toLowerCase (comp_name component) +:+
  "', component: " +:+ comp_name component +:+ "Component }".

Definition routingModuleText (imports routes first : string) : string :=
  nl +:+ "      import { NgModule } from '@angular/core';" +:+ nl +:+
  "      import { RouterModule, Routes } from '@angular/router';" +:+ nl +:+
  "  " +:+ nl +:+ "      " +:+ imports +:+ nl +:+
  "  " +:+ nl +:+ "      const routes: Routes = [" +:+ nl +:+
  "        " +:+ routes +:+ "," +:+ nl +:+
  "        { path: '', redirectTo: '/" +:+ first +:+ "', pathMatch: 'full' }," +:+ nl +:+
  "        { path: '**', redirectTo: '/" +:+ first +:+ "' }" +:+ nl +:+
  "      ];" +:+ nl +:+ "  " +:+ nl +:+
  "      @NgModule({" +:+ nl +:+ "        imports: [RouterModule.forRoot(routes)]," +:+ nl +:+
  "        exports: [RouterModule]" +:+ nl +:+
  "      })" +:+ nl +:+ "      export class AppRoutingModule { }" +:+ nl +:+
  "    ".

Definition generateAppRoutingModuleContent (components : list Component)
  : outcome string :=
  let imports := join nl (map importLine components) in
  let routes := join ("," +:+ nl) (map routeLine components) in
  match components with
  | [] => Thrown (TypeError "Cannot read properties of undefined (reading 'name')")
  | first :: _ =>
      Returned (routingModuleText imports routes (toLowerCase (comp_name first)))
  end.

(** [generateComponentTSContent(component)], lines 136-159. *)
Definition generateComponentTSContent (component : Component) : string :=
  nl +:+ "      import { Component, OnInit } from '@angular/core';" +:+ nl +:+
  "  " +:+ nl +:+ "      @Component({" +:+ nl +:+
  "        selector: 'app-" +:+ toLowerCase (comp_name component) +:+ "'," +:+ nl +:+
  "        templateUrl: './" +:+ toLowerCase (comp_name component) +:+ ".component.html'," +:+ nl +:+
  "        styleUrls: ['./" +:+ toLowerCase (comp_name component) +:+ ".component.css']" +:+ nl +:+
  "      })" +:+ nl +:+ "      export class " +:+ comp_name component +:+ "Component implements OnInit {" +:+ nl +:+
  "        constructor() { }" +:+ nl +:+
  "  " +:+ nl +:+ "        ngOnInit(): void { }" +:+ nl +:+
  "  " +:+ nl +:+ "        onSubmit(form: any): void {" +:+ nl +:+
  "          if (form.valid) {" +:+ nl +:+
  "            console.log('Form submitted:', form.value);" +:+ nl +:+
  "          } else {" +:+ nl +:+
  "            console.log('Form validation failed.');" +:+ nl +:+
  "          }" +:+ nl +:+ "        }" +:+ nl +:+
  "      }" +:+ nl +:+ "    ".

(** The pieces of one field of [generateComponentHTMLContent], lines
    166-270: what the callback destructures and derives from a field. *)
Section FieldPieces.
Variable field : Field.

Definition name : string := field_name field.
Definition required : bool := truthyBool (field_required field).
Definition regex : option string := field_regex field.
Definition options : list string := default [] (field_options field).
Definition validationMessage : option string :=
  field_validationMessage field.

Definition label : string := toTitleCase name.
Definition requiredMarker : string := if required then " *" else "".
Definition defaultValidationMessage : string := label +:+ " is required".
Definition errorMessage : string :=
  orElse validationMessage defaultValidationMessage.

Definition requiredAttr : string := if required then "required" else "".
Definition patternAttr : string :=
  if truthyString regex then "pattern=" +:+ dq +:+ text regex +:+ dq
  else "".
Definition patternMessage : string :=
  orElse validationMessage (name +:+ " format is invalid").
Definition patternError : string :=
  if truthyString regex
  then "<div *ngIf=" +:+ dq +:+ "form." +:+ name +:+ ".errors?.pattern" +:+ dq +:+
       " class=" +:+ dq +:+ "text-danger" +:+ dq +:+ ">" +:+ patternMessage +:+ "</div>"
  else "".
Definition requiredError : string :=
  "<div *ngIf=" +:+ dq +:+ "form." +:+ name +:+ ".errors?.required" +:+ dq +:+
  " class=" +:+ dq +:+ "text-danger" +:+ dq +:+ ">" +:+ errorMessage +:+ "</div>".

Definition optionHtml (option : string) : string :=
  "<option value=" +:+ dq +:+ option +:+ dq +:+ ">" +:+ option +:+ "</option>".
Definition checkboxToggle (option : string) : string :=
  "<label><input type=" +:+ dq +:+ "checkbox" +:+ dq +:+ " name=" +:+ dq +:+ name +:+ dq +:+
  " value=" +:+ dq +:+ option +:+ dq +:+ " [ngModel]=" +:+ dq +:+ name +:+ dq +:+ "/> " +:+
  option +:+ "</label>".
Definition radioToggle (option : string) : string :=
  "<label><input type=" +:+ dq +:+ "radio" +:+ dq +:+ " name=" +:+ dq +:+ name +:+ dq +:+
  " value=" +:+ dq +:+ option +:+ dq +:+ " [ngModel]=" +:+ dq +:+ name +:+ dq +:+ " /> " +:+
  option +:+ "</label>".

Definition textboxHTML : string :=
  nl +:+ "                <label for=" +:+ dq +:+ name +:+ dq +:+ ">" +:+ label +:+ requiredMarker +:+ "</label>" +:+ nl +:+
  "                <input type=" +:+ dq +:+ "text" +:+ dq +:+ " id=" +:+ dq +:+ name +:+ dq +:+ " name=" +:+ dq +:+ name +:+ dq +:+ " class=" +:+ dq +:+ "form-control" +:+ dq +:+ " [ngModel]=" +:+ dq +:+ name +:+ dq +:+ " " +:+ requiredAttr +:+ " " +:+ patternAttr +:+ "/>" +:+ nl +:+
  "                " +:+ requiredError +:+ nl +:+
  "              " +:+ patternError +:+ nl +:+
  "              ".

Definition textareaHTML : string :=
  nl +:+ "                <label for=" +:+ dq +:+ name +:+ dq +:+ ">" +:+ label +:+ requiredMarker +:+ "</label>" +:+ nl +:+
  "                <textarea id=" +:+ dq +:+ name +:+ dq +:+ " name=" +:+ dq +:+ name +:+ dq +:+ " class=" +:+ dq +:+ "form-control" +:+ dq +:+ " [ngModel]=" +:+ dq +:+ name +:+ dq +:+ " " +:+ requiredAttr +:+ "></textarea>" +:+ nl +:+
  "                " +:+ requiredError +:+ nl +:+
  "              ".

Definition dropdownHTML : string :=
  nl +:+ "                <label for=" +:+ dq +:+ name +:+ dq +:+ ">" +:+ label +:+ requiredMarker +:+ "</label>" +:+ nl +:+
  "                <select id=" +:+ dq +:+ name +:+ dq +:+ " name=" +:+ dq +:+ name +:+ dq +:+ " class=" +:+ dq +:+ "form-control" +:+ dq +:+ " [ngModel]=" +:+ dq +:+ name +:+ dq +:+ " " +:+ requiredAttr +:+ ">" +:+ nl +:+
  "                  <option value=" +:+ dq +:+ dq +:+ ">-- Select --</option>" +:+ nl +:+
  "                  " +:+ join "" (map optionHtml options) +:+ nl +:+
  "                </select>" +:+ nl +:+
  "                " +:+ requiredError +:+ nl +:+
  "              ".

Definition checkboxHTML : string :=
  nl +:+ "                <label>" +:+ nl +:+
  "                  <input type=" +:+ dq +:+ "checkbox" +:+ dq +:+ " id=" +:+ dq +:+ name +:+ dq +:+ " name=" +:+ dq +:+ name +:+ dq +:+ " [ngModel]=" +:+ dq +:+ name +:+ dq +:+ " /> " +:+ label +:+ nl +:+
  "                </label>" +:+ nl +:+
  "              ".

Definition checkboxlistHTML : string :=
  nl +:+ "                <label>" +:+ label +:+ requiredMarker +:+ "</label>" +:+ nl +:+
  "                <div>" +:+ nl +:+
  "                  " +:+ join "<br>" (map checkboxToggle options) +:+ nl +:+
  "                </div>" +:+ nl +:+
  "              ".

Definition radiobuttonHTML : string :=
  nl +:+ "                <label>" +:+ nl +:+
  "                  <input type=" +:+ dq +:+ "radio" +:+ dq +:+ " id=" +:+ dq +:+ name +:+ dq +:+ " name=" +:+ dq +:+ name +:+ dq +:+ " [ngModel]=" +:+ dq +:+ name +:+ dq +:+ " /> " +:+ label +:+ nl +:+
  "                </label>" +:+ nl +:+
  "              ".

Definition radiobuttonlistHTML : string :=
  nl +:+ "                <label>" +:+ label +:+ requiredMarker +:+ "</label>" +:+ nl +:+
  "                <div>" +:+ nl +:+
  "                  " +:+ join "<br>" (map radioToggle options) +:+ nl +:+
  "                </div>" +:+ nl +:+
  "                " +:+ requiredError +:+ nl +:+
  "              ".

(** The [switch (type)]; the default case repeats the textbox template. *)
Definition controlHTML : string :=
  if decide (field_type field = "textbox") then textboxHTML
  else if decide (field_type field = "textarea") then textareaHTML
  else if decide (field_type field = "dropdown") then dropdownHTML
  else if decide (field_type field = "checkbox") then checkboxHTML
  else if decide (field_type field = "checkboxlist") then checkboxlistHTML
  else if decide (field_type field = "radiobutton") then radiobuttonHTML
  else if decide (field_type field = "radiobuttonlist") then radiobuttonlistHTML
  else textboxHTML.

Definition fieldGroup : string :=
  "<div class=" +:+ dq +:+ "form-group" +:+ dq +:+ ">" +:+ controlHTML +:+ "</div>".
End FieldPieces.

(** [generateComponentHTMLContent(component, useBootstrap, columnLayout)],
    lines 161-283. *)
Definition layoutClass (useBootstrap : bool) (columnLayout : ColumnLayout)
  : string :=
  if useBootstrap
  then "row row-cols-" +:+ numberToString (columns columnLayout)
  else "custom-layout".

Definition formHTML (layoutClass fieldHTML : string) : string :=
  nl +:+ "      <form #form=" +:+ dq +:+ "ngForm" +:+ dq +:+ " (ngSubmit)=" +:+ dq +:+ "onSubmit(form)" +:+ dq +:+ " class=" +:+ dq +:+ layoutClass +:+ dq +:+ ">" +:+ nl +:+
  "        " +:+ fieldHTML +:+ nl +:+
  "        <button type=" +:+ dq +:+ "submit" +:+ dq +:+ " class=" +:+ dq +:+ "btn btn-primary" +:+ dq +:+ ">Submit</button>" +:+ nl +:+
  "      </form>" +:+ nl +:+
  "    ".

Definition generateComponentHTMLContent (component : Component)
  (useBootstrap : bool) (columnLayout : ColumnLayout) : string :=
  let fieldHTML := join "" (map fieldGroup (comp_fields component)) in
  formHTML (layoutClass useBootstrap columnLayout) fieldHTML.

(** [generateMenuHTMLContent(components, menuType, useBootstrap)],
    lines 285-306. *)
Definition menuClass (menuType : MenuType) (useBootstrap : bool) : string :=
  if useBootstrap
  then match menuType with
       | vertical => "nav flex-column"
       | horizontal => "nav nav-pills"
       end
  else match menuType with
       | vertical => "custom-vertical-menu"
       | horizontal => "custom-horizontal-menu"
       end.

Definition menuItem (component : Component) : string :=
  "<a class=" +:+ dq +:+ "nav-link" +:+ dq +:+ " routerLink=" +:+ dq +:+ "/" +:+
  toLowerCase (comp_name component) +:+ dq +:+ ">" +:+
  orElse (comp_menuName component) (comp_name component) +:+ "</a>".

Definition generateMenuHTMLContent (components : list Component)
  (menuType : MenuType) (useBootstrap : bool) : string :=
  let menuItems := join "" (map menuItem components) in
  "<nav class=" +:+ dq +:+ menuClass menuType useBootstrap +:+ dq +:+ ">" +:+
  menuItems +:+ "</nav>".

(** The shell, lines 84-94 of [generateAngularProjectWithTSMorph]. *)
Definition footerHtml (footerContent : option string) : string :=
  if truthyString footerContent
  then "<footer>" +:+ text footerContent +:+ "</footer>"
  else "".

Definition appComponentHtml (menuHtml footerHtml : string) : string :=
  nl +:+ "        " +:+ menuHtml +:+ nl +:+
  "        <router-outlet></router-outlet>" +:+ nl +:+
  "        " +:+ footerHtml +:+ nl +:+
  "      ".

End CreateProj.

(** ** Running a generator: state and exceptions

    A run reads and writes the [World]; when it throws, what it had already
    written stays written. *)

Definition Run (A : Type) : Type := World → outcome A * World.

Global Instance Run_ret : MRet Run := λ A a w, (Returned a, w).
Global Instance Run_bind : MBind Run := λ A B f m w,
  match m w with
  | (Returned a, w') => f a w'
  | (Thrown e, w') => (Thrown e, w')
  end.

Definition act (f : World → World) : Run unit := λ w, (Returned tt, f w).
Definition throw {A} (e : error) : Run A := λ w, (Thrown e, w).
Definition liftOutcome {A} (o : outcome A) : Run A := λ w, (o, w).

(** [l.forEach(f)] and [for (const x of l) f(x)]. *)
Fixpoint forEach {A} (f : A → Run unit) (l : list A) : Run unit :=
  match l with
  | [] => mret tt
  | x :: l' => f x ;; forEach f l'
  end.

Module CreateProjRun.
Import CreateProj.

Definition appDir (projectName : string) : string :=
  projectName +:+ "/src/app".
Definition componentDir (projectName : string) (component : Component)
  : string :=
  projectName +:+ "/src/app/" +:+ toLowerCase (comp_name component).
Definition componentFile (projectName : string) (component : Component)
  (extension : string) : string :=
  componentDir projectName component +:+ "/" +:+
  toLowerCase (comp_name component) +:+ ".component." +:+ extension.

(** The body of [components.forEach], lines 59-82. *)
Definition generateComponent (projectName : string) (useBootstrap : bool)
  (columnLayout : ColumnLayout) (component : Component) : Run unit :=
  act (createSourceFile (componentFile projectName component "ts")
         (generateComponentTSContent component)) ;;
  act (writeFileSync (componentFile projectName component "html")
         (generateComponentHTMLContent component useBootstrap columnLayout)) ;;
  act (writeFileSync (componentFile projectName component "css") "").

(** [generateAngularProjectWithTSMorph(spec, useBootstrap, columnLayout)],
    lines 28-99.  [fs.ensureDirSync] creates directories only. *)
Definition generateAngularProjectWithTSMorph (spec : Specification)
  (useBootstrap : bool) (columnLayout : ColumnLayout) : Run unit :=
  act newProject ;;
  act (emptyDirSync (projectName spec)) ;;
  act (createSourceFile (appDir (projectName spec) +:+ "/app.module.ts") "") ;;
  routing ← liftOutcome (generateAppRoutingModuleContent (components spec)) ;
  act (createSourceFile
         (appDir (projectName spec) +:+ "/app-routing.module.ts") routing) ;;
  forEach (generateComponent (projectName spec) useBootstrap columnLayout)
    (components spec) ;;
  act (writeFileSync (appDir (projectName spec) +:+ "/app.component.html")
         (appComponentHtml
            (generateMenuHTMLContent (components spec) (menuType spec)
               useBootstrap)
            (footerHtml (footerContent spec)))) ;;
  act saveSync.

End CreateProjRun.

(** ** [src/unnamed/part_001]: the generator on the Angular CLI and ts-morph *)

Module Part001.

(** [capitalize(str)], lines 165-167. *)
Definition capitalize (str : string) : string :=
  toUpperCase (charAt0 str) +:+ slice1 str.

(** The callback of [generateValidationRules], lines 127-135: the
    [validations] array of one field, then its control.  Each test is one of
    JavaScript truthiness: a boolean that is [true], a number that is not 0,
    a string that is not empty, an array. *)
Definition pushIf (condition : option bool) (item : string)
  (array : list string) : list string :=
  match condition with
  | Some true => array ++ [item]
  | _ => array
  end.

Definition pushNumber (number : option Z) (item : Z → string)
  (array : list string) : list string :=
  match number with
  | Some n => if n =? 0 then array else array ++ [item n]
  | None => array
  end.

Definition pushString (text : option string) (item : string → string)
  (array : list string) : list string :=
  match text with
  | Some (String c s) => array ++ [item (String c s)]
  | _ => array
  end.

Definition pushRange (range : option (Z * Z)) (item : Z → Z → string)
  (array : list string) : list string :=
  match range with
  | Some (lo, hi) => array ++ [item lo hi]
  | None => array
  end.

Definition fieldValidations (field : Field) : list string :=
  match field_validations field with
  | None => []
  | Some v =>
      let validations := [] in
      let validations :=
        pushIf (v_required v) "Validators.required" validations in
      let validations :=
        pushNumber (v_minLength v)
          (λ minLength,
             "Validators.minLength(" +:+ numberToString minLength +:+ ")")
          validations in
      let validations :=
        pushNumber (v_maxLength v)
          (λ maxLength,
             "Validators.maxLength(" +:+ numberToString maxLength +:+ ")")
          validations in
      let validations :=
        pushString (v_regex v)
          (λ regex, "Validators.pattern(/" +:+ regex +:+ "/)") validations in
      pushRange (v_range v)
        (λ lo hi,
           "Validators.min(" +:+ numberToString lo +:+ "), Validators.max(" +:+
           numberToString hi +:+ ")")
        validations
  end.

Definition fieldControl (field : Field) : string :=
  field_name field +:+ ": [null, [" +:+ join ", " (fieldValidations field) +:+
  "]]".

(** [generateValidationRules(component)], lines 125-137. *)
Definition generateValidationRules (component : Component) : string :=
  join ", " (map fieldControl (comp_fields component)).

(** [generateComponentHTML(component, columnLayout, useBootstrap)],
    lines 139-163.  [12 / columnLayout] is exact on the layouts offered. *)
Definition columnClass (columnLayout : ColumnLayout) (useBootstrap : bool)
  : string :=
  if useBootstrap
  then "col-md-" +:+ numberToString (12 / columns columnLayout)
  else "custom-col-" +:+ numberToString (columns columnLayout).

Definition fieldHtml (columnClass : string) (field : Field) : string :=
  let label :=
    "<label for=" +:+ dq +:+ field_name field +:+ dq +:+ ">" +:+
    capitalize (field_name field) +:+ "</label>" in
  let input :=
    "<input id=" +:+ dq +:+ field_name field +:+ dq +:+ " formControlName=" +:+ dq +:+
    field_name field +:+ dq +:+ " type=" +:+ dq +:+ "text" +:+ dq +:+ " class=" +:+ dq +:+
    "form-control" +:+ dq +:+ " />" in
  let error :=
    "<div *ngIf=" +:+ dq +:+ "form.controls['" +:+ field_name field +:+ "'].errors" +:+ dq +:+
    " class=" +:+ dq +:+ "text-danger" +:+ dq +:+ ">Invalid " +:+ field_name field +:+
    "</div>" in
  "<div class=" +:+ dq +:+ columnClass +:+ dq +:+ ">" +:+ label +:+ nl +:+ input +:+ nl +:+
  error +:+ "</div>".

Definition buttonHtml (button : string) : string :=
  "<button type=" +:+ dq +:+ "button" +:+ dq +:+ " class=" +:+ dq +:+ "btn btn-primary" +:+ dq +:+
  ">" +:+ button +:+ "</button>".

Definition containerHTML (fieldsHtml buttonsHtml : string) : string :=
  nl +:+ "<div class=" +:+ dq +:+ "container" +:+ dq +:+ ">" +:+ nl +:+
  "  <form [formGroup]=" +:+ dq +:+ "form" +:+ dq +:+ " (ngSubmit)=" +:+ dq +:+ "onSubmit()" +:+ dq +:+ " class=" +:+ dq +:+ "row" +:+ dq +:+ ">" +:+ nl +:+
  "    " +:+ fieldsHtml +:+ nl +:+
  "    <div class=" +:+ dq +:+ "w-100" +:+ dq +:+ "></div>" +:+ nl +:+
  "    " +:+ buttonsHtml +:+ nl +:+
  "  </form>" +:+ nl +:+
  "</div>" +:+ nl +:+
  "  ".

Definition generateComponentHTML (component : Component)
  (columnLayout : ColumnLayout) (useBootstrap : bool) : string :=
  let fieldsHtml :=
    join nl (map (fieldHtml (columnClass columnLayout useBootstrap))
               (comp_fields component)) in
  let buttonsHtml := join nl (map buttonHtml (comp_buttons component)) in
  containerHTML fieldsHtml buttonsHtml.

(** What the orchestrator hands to ts-morph for one component, lines
    64-112: the class of the component and the statements of its
    constructor and of [onSubmit]. *)
Record ClassStructure : Type := {
  class_name : string;
  class_decorator : string;
  class_ctor : string;
  class_onSubmit : string
}.

Definition componentClass (component : Component) : ClassStructure :=
  {| class_name := capitalize (comp_name component) +:+ "Component";
     class_decorator :=
       "{" +:+ nl +:+ "              selector: 'app-" +:+ comp_name component +:+ "'," +:+ nl +:+
       "              templateUrl: './" +:+ comp_name component +:+ ".component.html'," +:+ nl +:+
       "              styleUrls: ['./" +:+ comp_name component +:+ ".component.css']" +:+ nl +:+
       "            }";
     class_ctor :=
       "this.form = this.fb.group({ " +:+ generateValidationRules component +:+
       " });";
     class_onSubmit :=
       nl +:+ "            if (this.form.valid) {" +:+ nl +:+
       "              console.log('Form Submitted:', this.form.value);" +:+ nl +:+
       "            } else {" +:+ nl +:+
       "              console.error('Form is invalid');" +:+ nl +:+
       "            }" +:+ nl +:+
       "          " |}.

(** The collaborators of the run, which are not part of the sources: the
    shell ([execSync] tells whether the command succeeded and which files it
    left), the printer of ts-morph, the working directory, and the edit of
    [angular.json] (which fails when the file does not parse). *)
Record Collaborators : Type := {
  execSync : string → gmap string string → bool * gmap string string;
  printSourceFile : ClassStructure → string;
  cwd : string;
  addStyle : string → string → string → option string
}.

Section Orchestrator.
Variable env : Collaborators.

Definition exec (command : string) : Run unit := λ w,
  let (succeeded, fs) := execSync env command (files w) in
  let w' := {| files := fs; project := project w |} in
  if succeeded then (Returned tt, w') else (Thrown (ExecError command), w').

(** [path.join(...)]. *)
Definition pathJoin (segments : list string) : string := join "/" segments.

(** Lines 43-50. *)
Definition patchAngularJson (spec : Specification)
  (angularJsonPath : string) : Run unit := λ w,
  match files w !! angularJsonPath with
  | None => (Thrown (FileError angularJsonPath), w)
  | Some angularJson =>
      match addStyle env (projectName spec) angularJson
              "node_modules/bootstrap/dist/css/bootstrap.min.css" with
      | None => (Thrown (TypeError "angular.json"), w)
      | Some patched =>
          (Returned tt, writeFileSync angularJsonPath patched w)
      end
  end.

Definition addBootstrap (spec : Specification) (projectPath : string)
  : Run unit :=
  exec "npm install bootstrap" ;;
  patchAngularJson spec (pathJoin [projectPath; "angular.json"]).

(** The body of the loop, lines 55-119: the command, then the source file
    of the class, created and saved at once, then the markup. *)
Definition generateComponent (projectPath : string) (useBootstrap : bool)
  (columnLayout : ColumnLayout) (component : Component) : Run unit :=
  exec ("ng generate component " +:+ comp_name component) ;;
  let componentPath :=
    pathJoin [projectPath; "src"; "app"; comp_name component;
              comp_name component +:+ ".component.ts"] in
  let componentHtmlPath :=
    pathJoin [projectPath; "src"; "app"; comp_name component;
              comp_name component +:+ ".component.html"] in
  act (writeFileSync componentPath
         (printSourceFile env (componentClass component))) ;;
  let htmlCode := generateComponentHTML component columnLayout useBootstrap in
  act (writeFileSync componentHtmlPath htmlCode).

(** [generateAngularProjectWithTSMorph(spec, useBootstrap, columnLayout)],
    lines 31-123.  [process.chdir(projectPath)] moves the commands that
    follow into the project, which [execSync] of the collaborators accounts
    for; it enters the directory that the skeleton command, when it
    succeeds, has created.  The paths the run writes to are absolute. *)
Definition generateAngularProjectWithTSMorph (spec : Specification)
  (useBootstrap : bool) (columnLayout : ColumnLayout) : Run unit :=
  let projectPath := pathJoin [cwd env; projectName spec] in
  exec ("npx @angular/cli new " +:+ projectName spec +:+ " --defaults") ;;
  (if useBootstrap then addBootstrap spec projectPath else mret tt) ;;
  forEach (generateComponent projectPath useBootstrap columnLayout)
    (components spec).
End Orchestrator.

End Part001.

(** ** [src/createproj.ts], lines 347-657: the generator on [ng new] *)

Module CreateProjRouting.
Import CreateProj.

(** [generateMenuHTML(components, menuType)], lines 387-416. *)
Definition dynamicStyles (menuType : MenuType) : string :=
  match menuType with
  | vertical =>
      nl +:+ "          display: flex;" +:+ nl +:+
      "          flex-direction: column;" +:+ nl +:+
      "          gap: 10px;" +:+ nl +:+
      "        "
  | horizontal =>
      nl +:+ "          display: flex;" +:+ nl +:+
      "          flex-direction: row;" +:+ nl +:+
      "          gap: 20px;" +:+ nl +:+
      "        "
  end.

Definition menuLink (component : Component) : string :=
  "<a routerLink=" +:+ dq +:+ "/" +:+ toLowerCase (comp_name component) +:+ dq +:+
  " style=" +:+ dq +:+ "text-decoration: none; color: inherit;" +:+ dq +:+ ">" +:+ nl +:+
  "            " +:+ orElse (comp_menuName component) (comp_name component) +:+ nl +:+
  "          </a>".

Definition generateMenuHTML (components : list Component)
  (menuType : MenuType) : string :=
  let menuItems := join "" (map menuLink components) in
  nl +:+ "      <nav style=" +:+ dq +:+ dynamicStyles menuType +:+ dq +:+ ">" +:+ nl +:+
  "        " +:+ menuItems +:+ nl +:+
  "      </nav>" +:+ nl +:+ "    ".

(** [generateComponentHTML(component)], lines 418-599.  The callback
    destructures the field as that of [generateComponentHTMLContent] does
    and its [switch] holds the same templates; the default message is built
    from the name of the field, not from its label. *)
Section FieldPieces.
Variable field : Field.

Definition defaultValidationMessage : string := name field +:+ " is required".
Definition errorMessage : string :=
  orElse (validationMessage field) defaultValidationMessage.
Definition requiredError : string :=
  "<div *ngIf=" +:+ dq +:+ "form." +:+ name field +:+ ".errors?.required" +:+ dq +:+
  " class=" +:+ dq +:+ "text-danger" +:+ dq +:+ ">" +:+ errorMessage +:+ "</div>".

Definition textboxHTML : string :=
  nl +:+ "                <label for=" +:+ dq +:+ name field +:+ dq +:+ ">" +:+ label field +:+ requiredMarker field +:+ "</label>" +:+ nl +:+
  "                <input type=" +:+ dq +:+ "text" +:+ dq +:+ " id=" +:+ dq +:+ name field +:+ dq +:+ " name=" +:+ dq +:+ name field +:+ dq +:+ " class=" +:+ dq +:+ "form-control" +:+ dq +:+ " [ngModel]=" +:+ dq +:+ name field +:+ dq +:+ " " +:+ requiredAttr field +:+ " " +:+ patternAttr field +:+ "/>" +:+ nl +:+
  "                " +:+ requiredError +:+ nl +:+
  "              " +:+ patternError field +:+ nl +:+
  "              ".

Definition textareaHTML : string :=
  nl +:+ "                <label for=" +:+ dq +:+ name field +:+ dq +:+ ">" +:+ label field +:+ requiredMarker field +:+ "</label>" +:+ nl +:+
  "                <textarea id=" +:+ dq +:+ name field +:+ dq +:+ " name=" +:+ dq +:+ name field +:+ dq +:+ " class=" +:+ dq +:+ "form-control" +:+ dq +:+ " [ngModel]=" +:+ dq +:+ name field +:+ dq +:+ " " +:+ requiredAttr field +:+ "></textarea>" +:+ nl +:+
  "                " +:+ requiredError +:+ nl +:+
  "              ".

Definition dropdownHTML : string :=
  nl +:+ "                <label for=" +:+ dq +:+ name field +:+ dq +:+ ">" +:+ label field +:+ requiredMarker field +:+ "</label>" +:+ nl +:+
  "                <select id=" +:+ dq +:+ name field +:+ dq +:+ " name=" +:+ dq +:+ name field +:+ dq +:+ " class=" +:+ dq +:+ "form-control" +:+ dq +:+ " [ngModel]=" +:+ dq +:+ name field +:+ dq +:+ " " +:+ requiredAttr field +:+ ">" +:+ nl +:+
  "                  <option value=" +:+ dq +:+ dq +:+ ">-- Select --</option>" +:+ nl +:+
  "                  " +:+ join "" (map optionHtml (options field)) +:+ nl +:+
  "                </select>" +:+ nl +:+
  "                " +:+ requiredError +:+ nl +:+
  "              ".

Definition radiobuttonlistHTML : string :=
  nl +:+ "                <label>" +:+ label field +:+ requiredMarker field +:+ "</label>" +:+ nl +:+
  "                <div>" +:+ nl +:+
  "                  " +:+ join "<br>" (map (radioToggle field) (options field)) +:+ nl +:+
  "                </div>" +:+ nl +:+
  "                " +:+ requiredError +:+ nl +:+
  "              ".

(** The [switch (type)]; the templates of [checkbox], [checkboxlist] and
    [radiobutton] hold no error message and are those of [CreateProj]. *)
Definition controlHTML : string :=
  if decide (field_type field = "textbox") then textboxHTML
  else if decide (field_type field = "textarea") then textareaHTML
  else if decide (field_type field = "dropdown") then dropdownHTML
  else if decide (field_type field = "checkbox") then checkboxHTML field
  else if decide (field_type field = "checkboxlist") then checkboxlistHTML field
  else if decide (field_type field = "radiobutton") then radiobuttonHTML field
  else if decide (field_type field = "radiobuttonlist") then radiobuttonlistHTML
  else textboxHTML.

Definition fieldGroup : string :=
  nl +:+ "          <div class=" +:+ dq +:+ "form-group" +:+ dq +:+ ">" +:+ nl +:+
  "            " +:+ controlHTML +:+ nl +:+
  "          </div>" +:+ nl +:+
  "        ".
End FieldPieces.

Definition generateComponentHTML (component : Component) : string :=
  let formFieldsHTML := join nl (map fieldGroup (comp_fields component)) in
  nl +:+ "      <form #form=" +:+ dq +:+ "ngForm" +:+ dq +:+ " (ngSubmit)=" +:+ dq +:+ "onSubmit(form)" +:+ dq +:+ ">" +:+ nl +:+
  "        " +:+ formFieldsHTML +:+ nl +:+
  "        <button type=" +:+ dq +:+ "submit" +:+ dq +:+ " class=" +:+ dq +:+ "btn btn-primary" +:+ dq +:+ ">Submit</button>" +:+ nl +:+
  "      </form>" +:+ nl +:+
  "    ".

(** [generateComponentTS(component)], lines 601-627. *)
Definition className (component : Component) : string :=
  (toUpperCase (charAt0 (comp_name component)) +:+
   slice1 (comp_name component)) +:+ "Component".

Definition generateComponentTS (component : Component) : string :=
  nl +:+ "      import { Component, OnInit } from '@angular/core';" +:+ nl +:+
  "  " +:+ nl +:+ "      @Component({" +:+ nl +:+
  "        selector: 'app-" +:+ toLowerCase (comp_name component) +:+ "'," +:+ nl +:+
  "        templateUrl: './" +:+ toLowerCase (comp_name component) +:+ ".component.html'," +:+ nl +:+
  "        styleUrls: ['./" +:+ toLowerCase (comp_name component) +:+ ".component.css']" +:+ nl +:+
  "      })" +:+ nl +:+ "      export class " +:+ className component +:+ " implements OnInit {" +:+ nl +:+
  "  " +:+ nl +:+ "        constructor() { }" +:+ nl +:+
  "  " +:+ nl +:+ "        ngOnInit(): void { }" +:+ nl +:+
  "  " +:+ nl +:+ "        onSubmit(form: any): void {" +:+ nl +:+
  "          if (form.valid) {" +:+ nl +:+
  "            console.log('Form submitted successfully:', form.value);" +:+ nl +:+
  "          } else {" +:+ nl +:+
  "            console.log('Form validation failed');" +:+ nl +:+
  "          }" +:+ nl +:+ "        }" +:+ nl +:+
  "      }" +:+ nl +:+ "    ".

(** [generateAppRoutingModule(components)], lines 629-657: the text around
    the imports and the routes is that of [generateAppRoutingModuleContent]. *)
Definition importLine (component : Component) : string :=
  "import { " +:+ className component +:+ " } from './" +:+
  toLowerCase (comp_name component) +:+ "/" +:+
  toLowerCase (comp_name component) +:+ ".component';".

Definition routeLine (component : Component) : string :=
  "  { path: '" +:+ toLowerCase (comp_name component) +:+ "', component: " +:+
  className component +:+ " }".

Definition generateAppRoutingModule (components : list Component)
  : outcome string :=
  let routes := join ("," +:+ nl) (map routeLine components) in
  let imports := join nl (map importLine components) in
  match components with
  | [] => Thrown (TypeError "Cannot read properties of undefined (reading 'name')")
  | first :: _ =>
      Returned (routingModuleText imports routes (toLowerCase (comp_name first)))
  end.

(** [generateAngularProjectWithRouting(openApiSpec)], lines 347-385.  The
    shell is a collaborator: [execSync] tells whether the command succeeded
    and which files it left. *)
Section Orchestrator.
Variable execSync : string → gmap string string → bool * gmap string string.

Definition exec (command : string) : Run unit := λ w,
  let (succeeded, fs) := execSync command (files w) in
  let w' := {| files := fs; project := project w |} in
  if succeeded then (Returned tt, w') else (Thrown (ExecError command), w').

Definition componentDir (projectName : string) (component : Component)
  : string :=
  "./" +:+ projectName +:+ "/src/app/" +:+ toLowerCase (comp_name component).
Definition componentFile (projectName : string) (component : Component)
  (extension : string) : string :=
  componentDir projectName component +:+ "/" +:+
  toLowerCase (comp_name component) +:+ ".component." +:+ extension.

(** The body of [components.forEach], lines 360-369. *)
Definition generateComponent (projectName : string) (component : Component)
  : Run unit :=
  let htmlContent := generateComponentHTML component in
  let tsContent := generateComponentTS component in
  act (writeFileSync (componentFile projectName component "html") htmlContent) ;;
  act (writeFileSync (componentFile projectName component "ts") tsContent) ;;
  act (writeFileSync (componentFile projectName component "css") "").

Definition appComponentHtml (menuHtml footerHtml : string) : string :=
  nl +:+ "      " +:+ menuHtml +:+ nl +:+
  "      <router-outlet></router-outlet>" +:+ nl +:+
  "      " +:+ footerHtml +:+ nl +:+
  "    ".

Definition generateAngularProjectWithRouting (spec : Specification)
  : Run unit :=
  exec ("ng new " +:+ projectName spec +:+ " --routing --style css") ;;
  let menuHtml := generateMenuHTML (components spec) (menuType spec) in
  forEach (generateComponent (projectName spec)) (components spec) ;;
  routingContent ← liftOutcome (generateAppRoutingModule (components spec)) ;
  act (writeFileSync
         ("./" +:+ projectName spec +:+ "/src/app/app-routing.module.ts")
         routingContent) ;;
  act (writeFileSync
         ("./" +:+ projectName spec +:+ "/src/app/app.component.html")
         (appComponentHtml menuHtml (footerHtml (footerContent spec)))).
End Orchestrator.

End CreateProjRouting.

(** ** Vocabulary of the properties *)

(** The three derived forms of a name: [classForm] is the expression of
    [generateComponentTS] and [generateAppRoutingModule] (lines 602 and 631
    of [createproj.ts]) and [capitalize] of [part_001]; [pathForm] is
    [name.toLowerCase()]; [labelForm] is [toTitleCase]. *)
Definition classForm (name : string) : string :=
  toUpperCase (charAt0 name) +:+ slice1 name.
Definition pathForm (name : string) : string := toLowerCase name.
Definition labelForm (name : string) : string := CreateProj.toTitleCase name.

(** An entry of the routing table, and the text of the [routes] array: the
    component routes are joined by a comma and a line feed, each redirect
    starts a line of its own. *)
Inductive RouteEntry : Type :=
| ComponentRoute (path component : string)
| RedirectRoute (path target : string) (full : bool).

Definition renderEntry (e : RouteEntry) : string :=
  match e with
  | ComponentRoute path component =>
      "{ path: '" +:+ path +:+ "', component: " +:+ component +:+ " }"
  | RedirectRoute path target full =>
      "{ path: '" +:+ path +:+ "', redirectTo: '/" +:+ target +:+ "'" +:+
      (if full then ", pathMatch: 'full'" else "") +:+ " }"
  end.

Definition separatorBefore (e : RouteEntry) : string :=
  match e with
  | ComponentRoute _ _ => "," +:+ nl
  | RedirectRoute _ _ _ => "," +:+ nl +:+ "        "
  end.

Fixpoint renderMore (es : list RouteEntry) : string :=
  match es with
  | [] => ""
  | e :: es' => separatorBefore e +:+ renderEntry e +:+ renderMore es'
  end.

Definition renderTable (es : list RouteEntry) : string :=
  match es with
  | [] => ""
  | e :: es' => renderEntry e +:+ renderMore es'
  end.

(** The table [generateAppRoutingModuleContent] prints, with the component
    identifier built by [identifier]. *)
Definition routeTableWith (identifier : string → string)
  (first : Component) (rest : list Component) : list RouteEntry :=
  map (λ c, ComponentRoute (pathForm (comp_name c))
              (identifier (comp_name c) +:+ "Component")) (first :: rest) ++
  [RedirectRoute "" (pathForm (comp_name first)) true;
   RedirectRoute "**" (pathForm (comp_name first)) false].

Definition routeTable : Component → list Component → list RouteEntry :=
  routeTableWith (λ name, name).

(** The text of the routing module around the [routes] array. *)
Definition routingModuleAround (imports table : string) : string :=
  nl +:+ "      import { NgModule } from '@angular/core';" +:+ nl +:+
  "      import { RouterModule, Routes } from '@angular/router';" +:+ nl +:+
  "  " +:+ nl +:+ "      " +:+ imports +:+ nl +:+
  "  " +:+ nl +:+ "      const routes: Routes = [" +:+ nl +:+
  "        " +:+ table +:+ nl +:+
  "      ];" +:+ nl +:+ "  " +:+ nl +:+
  "      @NgModule({" +:+ nl +:+ "        imports: [RouterModule.forRoot(routes)]," +:+ nl +:+
  "        exports: [RouterModule]" +:+ nl +:+
  "      })" +:+ nl +:+ "      export class AppRoutingModule { }" +:+ nl +:+
  "    ".

(** A validation directive, the text of its validator, and its place in the
    order of emission. *)
Inductive Directive : Type :=
| Required
| MinLength (n : Z)
| MaxLength (n : Z)
| Pattern (expr : string)
| Min (n : Z)
| Max (n : Z).

Definition renderDirective (d : Directive) : string :=
  match d with
  | Required => "Validators.required"
  | MinLength n => "Validators.minLength(" +:+ numberToString n +:+ ")"
  | MaxLength n => "Validators.maxLength(" +:+ numberToString n +:+ ")"
  | Pattern expr => "Validators.pattern(/" +:+ expr +:+ "/)"
  | Min n => "Validators.min(" +:+ numberToString n +:+ ")"
  | Max n => "Validators.max(" +:+ numberToString n +:+ ")"
  end.

Definition rank (d : Directive) : nat :=
  match d with
  | Required => 0
  | MinLength _ => 1
  | MaxLength _ => 2
  | Pattern _ => 3
  | Min _ => 4
  | Max _ => 5
  end.

(** The directives of a validation bundle, read off the tests of
    [generateValidationRules] one by one. *)
Definition directives (v : Validations) : list Directive :=
  match v_required v with Some true => [Required] | _ => [] end ++
  match v_minLength v with
  | Some n => if n =? 0 then [] else [MinLength n]
  | None => []
  end ++
  match v_maxLength v with
  | Some n => if n =? 0 then [] else [MaxLength n]
  | None => []
  end ++
  match v_regex v with
  | Some (String c s) => [Pattern (String c s)]
  | _ => []
  end ++
  match v_range v with
  | Some (lo, hi) => [Min lo; Max hi]
  | None => []
  end.

Definition fieldDirectives (field : Field) : list Directive :=
  match field_validations field with
  | Some v => directives v
  | None => []
  end.

(** [noChar c s]: the character [c] does not occur in [s]. *)
Fixpoint noChar (c : ascii) (s : string) : bool :=
  match s with
  | EmptyString => true
  | String a s' => negb (Ascii.eqb a c) && noChar c s'
  end.

(** [noBorder needle s]: no end of [s] is a beginning of [needle] that
    stops short of it, so that no occurrence of [needle] can start in [s]
    and finish in what follows. *)
Fixpoint noBorder (needle s : string) : bool :=
  match s with
  | EmptyString => true
  | String _ s' =>
      negb (startsWith s needle && negb (startsWith needle s)) &&
      noBorder needle s'
  end.

(** [silent needle s]: [s] holds no occurrence of [needle] and no beginning
    of one at its end, so that it adds nothing to a count of [needle]. *)
Definition silent (needle s : string) : Prop :=
  noBorder needle s = true ∧ occurrences needle s = 0%nat.

(** The texts a field brings into the markup hold no character [c]. *)
Definition fieldFree (c : ascii) (field : Field) : Prop :=
  noChar c (field_name field) = true
  ∧ Forall (λ o, noChar c o = true) (CreateProj.options field)
  ∧ noChar c (text (field_regex field)) = true
  ∧ noChar c (text (field_validationMessage field)) = true.

(** [s] ends with [suffix]. *)
Definition endsWith (suffix s : string) : Prop := ∃ before, s = before +:+ suffix.

(** Records used as examples. *)
Definition plainComponent (name : string) : Component :=
  {| comp_name := name; comp_fields := []; comp_menuName := None;
     comp_buttons := [] |}.

Definition plainField (name type : string) : Field :=
  {| field_name := name; field_type := type; field_required := None;
     field_regex := None; field_options := None;
     field_validationMessage := None; field_validations := None |}.

Definition noValidations : Validations :=
  {| v_required := None; v_minLength := None; v_maxLength := None;
     v_regex := None; v_range := None; v_defaultValue := None |}.

Definition withValidations (v : option Validations) (field : Field) : Field :=
  {| field_name := field_name field; field_type := field_type field;
     field_required := field_required field; field_regex := field_regex field;
     field_options := field_options field;
     field_validationMessage := field_validationMessage field;
     field_validations := v |}.

Definition withButtons (buttons : list string) (component : Component)
  : Component :=
  {| comp_name := comp_name component; comp_fields := comp_fields component;
     comp_menuName := comp_menuName component; comp_buttons := buttons |}.

(** A required single checkbox, and the field [age] of [src/spec.json]. *)
Definition agreeField : Field :=
  {| field_name := "agree"; field_type := "checkbox";
     field_required := Some true; field_regex := None; field_options := None;
     field_validationMessage := None; field_validations := None |}.

Definition ageField : Field :=
  {| field_name := "age"; field_type := "textbox";
     field_required := None; field_regex := None; field_options := None;
     field_validationMessage := None;
     field_validations :=
       Some {| v_required := Some true; v_minLength := None;
               v_maxLength := None; v_regex := None;
               v_range := Some (18, 100); v_defaultValue := None |} |}.

(** What a run of [CreateProjRun.generateAngularProjectWithTSMorph] leaves:
    [componentStep] is the effect of one round of its loop, [abortedWorld]
    the world when the routing module cannot be generated, and
    [generatedWorld] the world at the end of a whole run. *)
Definition componentStep (projectName : string) (useBootstrap : bool)
  (columnLayout : ColumnLayout) (component : Component) (w : World) : World :=
  writeFileSync (CreateProjRun.componentFile projectName component "css") ""
    (writeFileSync (CreateProjRun.componentFile projectName component "html")
       (CreateProj.generateComponentHTMLContent component useBootstrap
          columnLayout)
       (createSourceFile
          (CreateProjRun.componentFile projectName component "ts")
          (CreateProj.generateComponentTSContent component) w)).

Definition abortedWorld (spec : Specification) (w : World) : World :=
  createSourceFile
    (CreateProjRun.appDir (projectName spec) +:+ "/app.module.ts") ""
    (emptyDirSync (projectName spec) (newProject w)).

Definition shellPath (spec : Specification) : string :=
  CreateProjRun.appDir (projectName spec) +:+ "/app.component.html".

Definition shellHtml (spec : Specification) (useBootstrap : bool) : string :=
  CreateProj.appComponentHtml
    (CreateProj.generateMenuHTMLContent (components spec) (menuType spec)
       useBootstrap)
    (CreateProj.footerHtml (footerContent spec)).

Definition generatedWorld (spec : Specification) (useBootstrap : bool)
  (columnLayout : ColumnLayout) (routing : string) (w : World) : World :=
  saveSync
    (writeFileSync (shellPath spec) (shellHtml spec useBootstrap)
       (foldl (λ w component,
                 componentStep (projectName spec) useBootstrap columnLayout
                   component w)
          (createSourceFile
             (CreateProjRun.appDir (projectName spec) +:+
              "/app-routing.module.ts") routing (abortedWorld spec w))
          (components spec))).




Definition emptyWorld : World := {| files := ∅; project := ∅ |}.

(** The specification of [src/spec.json], its fields left out. *)
Definition exampleSpec : Specification :=
  {| projectName := "my-angular-app";
     components :=
       [ {| comp_name := "Register"; comp_fields := [];
            comp_menuName := Some "Users"; comp_buttons := [] |};
         {| comp_name := "About"; comp_fields := [];
            comp_menuName := None; comp_buttons := [] |} ];
     menuType := horizontal;
     footerContent :=
       Some "© 2024 MyCompany. All rights reserved." |}.

(** Collaborators for the examples: a shell in which every command succeeds
    and leaves the files as they are, except the command [failing]; a printer
    that prints the name of the class and the statement of its constructor;
    no [angular.json] to edit. *)
Definition shellFailingOn (failing : string) : Part001.Collaborators :=
  {| Part001.execSync := λ command fs,
       (if decide (command = failing) then false else true, fs);
     Part001.printSourceFile := λ c,
       Part001.class_name c +:+ nl +:+ Part001.class_ctor c;
     Part001.cwd := "/work";
     Part001.addStyle := λ _ _ _, None |}.

(** Fields used as examples: [username] and [interests] of [src/spec.json],
    and a field whose length bounds are both 0. *)
Definition usernameField : Field :=
  {| field_name := "username"; field_type := "textbox";
     field_required := Some true; field_regex := None; field_options := None;
     field_validationMessage := Some "Username is required.";
     field_validations :=
       Some {| v_required := Some true; v_minLength := Some 3;
               v_maxLength := Some 10; v_regex := None; v_range := None;
               v_defaultValue := None |} |}.

Definition zeroBoundsField : Field :=
  {| field_name := "nickname"; field_type := "textbox";
     field_required := None; field_regex := None; field_options := None;
     field_validationMessage := None;
     field_validations :=
       Some {| v_required := Some true; v_minLength := Some 0;
               v_maxLength := Some 0; v_regex := None; v_range := None;
               v_defaultValue := None |} |}.

Definition interestsField : Field :=
  {| field_name := "interests"; field_type := "checkboxlist";
     field_required := Some true; field_regex := None;
     field_options := Some ["Sports"; "Music"; "Travel"];
     field_validationMessage := None; field_validations := None |}.

(** A letter of the ASCII alphabet. *)
Definition isLetter (c : ascii) : bool := isUpper c || isLower c.

(** The fields [email] and [country] of [src/spec.json]. *)
Definition emailField : Field :=
  {| field_name := "email"; field_type := "textbox";
     field_required := Some true;
     field_regex := Some "^[a-zA-Z0-9._%+-]+@[a-zA-Z0-9.-]+\.[a-zA-Z]{2,}$";
     field_options := None;
     field_validationMessage := Some "Please enter a valid email address.";
     field_validations := None |}.

Definition countryField : Field :=
  {| field_name := "country"; field_type := "dropdown";
     field_required := Some true; field_regex := None;
     field_options := Some ["USA"; "Canada"; "India"];
     field_validationMessage := None; field_validations := None |}.

(** A field of a type no template is written for. *)
Definition sliderField : Field :=
  {| field_name := "volume"; field_type := "slider";
     field_required := Some true; field_regex := None; field_options := None;
     field_validationMessage := None; field_validations := None |}.

(** A field with another type. *)
Definition withType (type : string) (field : Field) : Field :=
  {| field_name := field_name field; field_type := type;
     field_required := field_required field; field_regex := field_regex field;
     field_options := field_options field;
     field_validationMessage := field_validationMessage field;
     field_validations := field_validations field |}.

(** The types [generateComponentHTMLContent] has a template for, and the
    numbers of [input] elements and of error blocks each template holds. *)
Definition knownTypes : list string :=
  ["textbox"; "textarea"; "dropdown"; "checkbox"; "checkboxlist";
   "radiobutton"; "radiobuttonlist"].

Definition inputCount (field : Field) : nat :=
  if decide (field_type field = "textarea") then 0
  else if decide (field_type field = "dropdown") then 0
  else if decide (field_type field = "checkboxlist")
       then length (CreateProj.options field)
  else if decide (field_type field = "radiobuttonlist")
       then length (CreateProj.options field)
  else 1.

Definition errorBlocks (field : Field) : nat :=
  if decide (field_type field = "checkbox") then 0
  else if decide (field_type field = "checkboxlist") then 0
  else if decide (field_type field = "radiobutton") then 0
  else if decide (field_type field = "textarea") then 1
  else if decide (field_type field = "dropdown") then 1
  else if decide (field_type field = "radiobuttonlist") then 1
  else if truthyString (field_regex field) then 2 else 1.

(** The names a component brings into the menu hold no character [c]. *)
Definition componentFree (c : ascii) (component : Component) : Prop :=
  noChar c (comp_name component) = true
  ∧ noChar c (text (comp_menuName component)) = true.

(** The paths a run of [createproj.ts] writes: the three files of a
    component, and the artifacts of a specification, which are the root
    module, the routing module, the shell and the files of every component. *)
Definition componentFiles (projectName : string) (component : Component)
  : list string :=
  [CreateProjRun.componentFile projectName component "ts";
   CreateProjRun.componentFile projectName component "html";
   CreateProjRun.componentFile projectName component "css"].

Definition artifactPaths (spec : Specification) : list string :=
  [CreateProjRun.appDir (projectName spec) +:+ "/app.module.ts";
   CreateProjRun.appDir (projectName spec) +:+ "/app-routing.module.ts";
   shellPath spec] ++
  concat (map (componentFiles (projectName spec)) (components spec)).

(** A path holds a file, on disk or in memory. *)
Definition written (path : string) (w : World) : Prop :=
  is_Some (project w !! path) ∨ is_Some (files w !! path).

(** Whatever a world holds below [dir] on disk, and whatever it holds in
    memory, is one of [paths]. *)
Definition within (dir : string) (paths : list string) (w : World) : Prop :=
  ∀ path, is_Some (project w !! path) ∨
          (under dir path = true ∧ is_Some (files w !! path)) →
          path ∈ paths.

(** The effect of one round of the loop of
    [generateAngularProjectWithRouting]. *)
Definition routingStep (projectName : string) (component : Component)
  (w : World) : World :=
  writeFileSync
    (CreateProjRouting.componentFile projectName component "css") ""
    (writeFileSync
       (CreateProjRouting.componentFile projectName component "ts")
       (CreateProjRouting.generateComponentTS component)
       (writeFileSync
          (CreateProjRouting.componentFile projectName component "html")
          (CreateProjRouting.generateComponentHTML component) w)).

(** A shell whose commands succeed and leave an [angular.json] behind. *)
Definition shellCreating (path content : string)
  : string → gmap string string → bool * gmap string string :=
  λ _ fs, (true, <[path := content]> fs).

(** Strings of ASCII characters; plain names, which are short words of
    letters, digits, [-] and [_]; and paths that name a file by the
    directories that lead to it, with no empty segment, [.] or [..].  The
    paths a generator builds from plain names are such paths, and the
    directory of each exists when the file is written. *)
Fixpoint allChars (p : ascii → bool) (s : string) : bool :=
  match s with
  | EmptyString => true
  | String c s' => p c && allChars p s'
  end.

Definition isAscii (s : string) : bool :=
  allChars (λ c, Nat.ltb (nat_of_ascii c) 128) s.

Definition isDigit (c : ascii) : bool :=
  let n := nat_of_ascii c in (Nat.leb 48 n && Nat.leb n 57)%bool.

Definition plainChar (c : ascii) : bool :=
  isLetter c || isDigit c || Ascii.eqb c "-" || Ascii.eqb c "_".

Definition plainName (s : string) : bool :=
  negb (String.eqb s "") && allChars plainChar s &&
  Nat.leb (String.length s) 64.

Definition plainSpec (spec : Specification) : Prop :=
  plainName (projectName spec) = true ∧
  Forall (λ component, plainName (comp_name component) = true)
    (components spec).

Definition segment (s : string) : bool :=
  negb (String.eqb s "") && negb (String.eqb s ".") &&
  negb (String.eqb s "..").

Definition normalPath (path : string) : bool :=
  forallb segment (split "/" path).

(** ** Strings: concatenation, joins and occurrences *)

Section StringFacts.
Implicit Types s t u needle : string.

Lemma append_nil_r s : s +:+ "" = s.
Proof. induction s as [|c s IH]; [done|]. by rewrite <-IH at 2. Qed.

Lemma append_assoc s t u : (s +:+ t) +:+ u = s +:+ (t +:+ u).
Proof.
  induction s as [|c s IH]; [done|].
  change (String c ((s +:+ t) +:+ u) = String c (s +:+ (t +:+ u))).
  by rewrite IH.
Qed.

Lemma append_cons c s t : String c s +:+ t = String c (s +:+ t).
Proof. done. Qed.

Lemma join_cons_cons sep s t (l : list string) :
  join sep (s :: t :: l) = s +:+ sep +:+ join sep (t :: l).
Proof. done. Qed.

Lemma join_snoc sep (l : list string) s t :
  join sep (l ++ [s +:+ sep +:+ t]) = join sep (l ++ [s; t]).
Proof.
  induction l as [|x [|y l] IH]; [done|done|].
  - change (x +:+ sep +:+ join sep ((y :: l) ++ [s +:+ sep +:+ t]) =
            x +:+ sep +:+ join sep ((y :: l) ++ [s; t])).
    by rewrite IH.
Qed.

Lemma startsWith_refl_app s t : startsWith s (s +:+ t) = true.
Proof.
  induction s as [|c s IH]; [by destruct t|].
  change (Ascii.eqb c c && startsWith s (s +:+ t) = true).
  by rewrite Ascii.eqb_refl, IH.
Qed.

Lemma startsWith_app needle s t :
  startsWith needle s = true → startsWith needle (s +:+ t) = true.
Proof.
  revert s; induction needle as [|a needle IH]; intros [|b s] H;
    try done; try by destruct t.
  change (Ascii.eqb a b && startsWith needle (s +:+ t) = true).
  simpl in H. apply andb_true_iff in H as [-> H]. by rewrite IH.
Qed.

(** An occurrence that starts in [s] and is found in [s +:+ t] either
    lies in [s] or runs over its end. *)
Lemma startsWith_app_inv needle s t :
  startsWith needle (s +:+ t) = true →
  startsWith needle s = true ∨ startsWith s needle = true.
Proof.
  revert s; induction needle as [|a needle IH]; intros [|b s] H;
    try (by left); try (by right).
  change (Ascii.eqb a b && startsWith needle (s +:+ t) = true) in H.
  apply andb_true_iff in H as [Hab H].
  destruct (IH _ H) as [H'|H']; [left|right]; simpl; rewrite ?Hab, ?H'.
  - done.
  - apply Ascii.eqb_eq in Hab as ->. by rewrite Ascii.eqb_refl.
Qed.

Lemma occurrences_app needle s t :
  noBorder needle s = true →
  occurrences needle (s +:+ t) =
  (occurrences needle s + occurrences needle t)%nat.
Proof.
  induction s as [|c s IH]; [done|]. intros Hs.
  cbn [noBorder] in Hs. apply andb_true_iff in Hs as [Hc Hs].
  change (((if startsWith needle (String c s +:+ t) then 1 else 0) +
           occurrences needle (s +:+ t))%nat =
          ((if startsWith needle (String c s) then 1 else 0) +
           occurrences needle s + occurrences needle t)%nat).
  rewrite (IH Hs).
  destruct (startsWith needle (String c s)) eqn:Hin.
  - by rewrite (startsWith_app _ _ t Hin).
  - destruct (startsWith needle (String c s +:+ t)) eqn:Hout; [|lia].
    apply startsWith_app_inv in Hout as [Hout|Hout]; [congruence|].
    by rewrite Hout in Hc.
Qed.

Lemma noChar_app c s t : noChar c (s +:+ t) = noChar c s && noChar c t.
Proof.
  induction s as [|a s IH]; [done|].
  change (negb (Ascii.eqb a c) && noChar c (s +:+ t) =
          negb (Ascii.eqb a c) && noChar c s && noChar c t).
  by rewrite IH, andb_assoc.
Qed.

(** A string without the first character of [needle] holds no occurrence
    and no beginning of one. *)
Lemma noChar_noBorder c needle s :
  noChar c s = true → noBorder (String c needle) s = true.
Proof.
  induction s as [|a s IH]; [done|]. cbn [noChar noBorder].
  intros [Ha%negb_true_iff Hs]%andb_true_iff.
  rewrite (IH Hs), andb_true_r. cbn [startsWith]. by rewrite Ha.
Qed.

Lemma noChar_occurrences c needle s :
  noChar c s = true → occurrences (String c needle) s = 0%nat.
Proof.
  induction s as [|a s IH]; [done|]. cbn [noChar occurrences].
  intros [Ha%negb_true_iff Hs]%andb_true_iff.
  rewrite (IH Hs). cbn [startsWith]. by rewrite Ascii.eqb_sym, Ha.
Qed.

(** A string without a character of [needle] holds no occurrence of it. *)
Lemma startsWith_noChar c needle s :
  noChar c needle = false → noChar c s = true →
  startsWith needle s = false.
Proof.
  revert s; induction needle as [|a needle IH]; intros [|b s] Hn Hs;
    try done.
  cbn [noChar startsWith] in *.
  apply andb_true_iff in Hs as [Hb%negb_true_iff Hs].
  destruct (Ascii.eqb a b) eqn:Hab; [|done].
  apply Ascii.eqb_eq in Hab as ->. rewrite Hb in Hn. by apply IH.
Qed.

Lemma occurrences_noChar c needle s :
  noChar c needle = false → noChar c s = true →
  occurrences needle s = 0%nat.
Proof.
  intros Hn. induction s as [|a s IH]; [done|]. intros Hs.
  cbn [occurrences]. rewrite (startsWith_noChar c) by done.
  cbn [noChar] in Hs. apply andb_true_iff in Hs as [_ Hs]. by rewrite IH.
Qed.
End StringFacts.

(** ** The routing table *)

Section Routing.
Import CreateProj.

Lemma routingModuleText_around imports routes first :
  routingModuleText imports routes first =
  routingModuleAround imports
    (routes +:+ renderMore [RedirectRoute "" first true;
                            RedirectRoute "**" first false]).
Proof.
  unfold routingModuleText, routingModuleAround.
  cbn [renderMore renderEntry separatorBefore].
  rewrite !append_assoc. reflexivity.
Qed.

Lemma renderMore_app es es' :
  renderMore (es ++ es') = renderMore es +:+ renderMore es'.
Proof.
  induction es as [|e es IH]; [done|].
  cbn [renderMore app]. by rewrite IH, !append_assoc.
Qed.

Lemma routeLine_entry c :
  routeLine c =
  renderEntry (ComponentRoute (pathForm (comp_name c))
                 (comp_name c +:+ "Component")).
Proof.
  unfold routeLine, renderEntry, pathForm. by rewrite !append_assoc.
Qed.

Lemma routes_table first rest :
  join ("," +:+ nl) (map routeLine (first :: rest)) =
  renderTable
    (map (λ c, ComponentRoute (pathForm (comp_name c))
                 (comp_name c +:+ "Component")) (first :: rest)).
Proof.
  revert first; induction rest as [|c rest IH]; intros first.
  - cbn [map join renderTable renderMore].
    by rewrite routeLine_entry, append_nil_r.
  - rewrite 2!map_cons, join_cons_cons, <-map_cons, IH, routeLine_entry.
    cbn [map renderTable renderMore separatorBefore].
    by rewrite !append_assoc.
Qed.
End Routing.

(** C1, as amended.  For a component list [first :: rest], the routing module
    that [generateAppRoutingModuleContent] returns holds the table [routeTable
    first rest] in its [routes] array.  The table has [length components + 2]
    entries: entry [i] pairs the lowercased name of component [i] with the
    name of the component, as it is written, followed by [Component]; the two
    entries after them are the empty-path and the wildcard redirect, both to
    the lowercased name of the first component.  When every name already
    starts as [classForm] leaves it, this is the table of the class forms. *)
Theorem routing_table_entries (first : Component) (rest : list Component) :
  let cs := first :: rest in
  let table := routeTable first rest in
  CreateProj.generateAppRoutingModuleContent cs =
    Returned (routingModuleAround (join nl (map CreateProj.importLine cs))
                (renderTable table))
  ∧ length table = (length cs + 2)%nat
  ∧ (∀ i c, cs !! i = Some c →
       table !! i = Some (ComponentRoute (pathForm (comp_name c))
                            (comp_name c +:+ "Component")))
  ∧ table !! length cs =
      Some (RedirectRoute "" (pathForm (comp_name first)) true)
  ∧ table !! S (length cs) =
      Some (RedirectRoute "**" (pathForm (comp_name first)) false)
  ∧ (Forall (λ c, classForm (comp_name c) = comp_name c) cs →
     table = routeTableWith classForm first rest).
Proof.
  intros cs table. unfold table, routeTable, routeTableWith. fold cs.
  set (entry := λ c, ComponentRoute (pathForm (comp_name c))
                       (comp_name c +:+ "Component")).
  assert (Hlen : length (map entry cs) = length cs) by apply length_map.
  repeat split.
  - unfold CreateProj.generateAppRoutingModuleContent, cs.
    rewrite routingModuleText_around, routes_table. fold entry.
    do 2 f_equal. destruct (map entry (first :: rest)) as [|e es] eqn:He;
      [done|].
    cbn [renderTable app]. by rewrite renderMore_app, append_assoc.
  - rewrite length_app, Hlen. done.
  - intros i c Hi. rewrite lookup_app_l.
    + by rewrite list_lookup_fmap, Hi.
    + rewrite Hlen. by eapply lookup_lt_Some.
  - rewrite lookup_app_r by lia. by rewrite Hlen, Nat.sub_diag.
  - rewrite lookup_app_r by lia. rewrite Hlen.
    by replace (S (length cs) - length cs)%nat with 1%nat by lia.
  - intros Hall. f_equal. apply map_ext_Forall.
    eapply Forall_impl; [exact Hall|]. intros c Hc. unfold entry. simpl.
    by rewrite Hc.
Qed.

(** C1, the claim as stated fails: for a component named [about] the entry
    names [aboutComponent]; the class form [AboutComponent] is nowhere in the
    routing module. *)
Lemma routing_class_form_counterexample :
  ∃ text,
    CreateProj.generateAppRoutingModuleContent [plainComponent "about"] =
      Returned text
    ∧ classForm "about" = "About"
    ∧ includes "component: aboutComponent" text = true
    ∧ includes (classForm "about" +:+ "Component") text = false.
Proof. eexists. split; [reflexivity|]. by vm_compute. Qed.

(** ** The validation rule compiler *)

Section ValidationRules.
Import Part001.

Lemma fieldValidations_directives (field : Field) :
  join ", " (fieldValidations field) =
  join ", " (map renderDirective (fieldDirectives field)).
Proof.
  unfold fieldValidations, fieldDirectives, directives, pushIf, pushNumber,
    pushString, pushRange.
  destruct (field_validations field) as [v|]; [|done].
  destruct (v_required v) as [[]|], (v_minLength v) as [a|],
    (v_maxLength v) as [b|], (v_regex v) as [[|c r]|],
    (v_range v) as [[lo hi]|];
    try destruct (a =? 0); try destruct (b =? 0);
    cbn [app map renderDirective join]; rewrite ?append_assoc; reflexivity.
Qed.

Lemma fieldControl_directives (field : Field) :
  fieldControl field =
  field_name field +:+ ": [null, [" +:+
  join ", " (map renderDirective (fieldDirectives field)) +:+ "]]".
Proof. unfold fieldControl. by rewrite fieldValidations_directives. Qed.

Lemma directives_sorted (v : Validations) :
  StronglySorted lt (map rank (directives v)).
Proof.
  unfold directives.
  destruct (v_required v) as [[]|], (v_minLength v) as [a|],
    (v_maxLength v) as [b|], (v_regex v) as [[|c r]|],
    (v_range v) as [[lo hi]|];
    try destruct (a =? 0); try destruct (b =? 0);
    cbn [app map rank]; repeat constructor.
Qed.
End ValidationRules.

(** C2.  For a field that carries a validation bundle, the control of the
    form model lists the validators of [directives]: required, then
    minLength, then maxLength, then pattern, then the range minimum before
    the range maximum, each present or absent, never in another order.  The
    bundle [{required: true, minLength: 3, maxLength: 10}] gives
    [Required; MinLength 3; MaxLength 10]. *)
Theorem validation_directive_order (field : Field) (v : Validations) :
  field_validations field = Some v →
  Part001.fieldControl field =
    field_name field +:+ ": [null, [" +:+
    join ", " (map renderDirective (directives v)) +:+ "]]"
  ∧ StronglySorted lt (map rank (directives v))
  ∧ (v_required v = Some true → v_minLength v = Some 3 →
     v_maxLength v = Some 10 → v_regex v = None → v_range v = None →
     directives v = [Required; MinLength 3; MaxLength 10]).
Proof.
  intros Hv. split; [|split].
  - rewrite fieldControl_directives. unfold fieldDirectives. by rewrite Hv.
  - apply directives_sorted.
  - intros Hr Hmin Hmax Hre Hra. unfold directives.
    by rewrite Hr, Hmin, Hmax, Hre, Hra.
Qed.

Lemma validation_directive_order_witness :
  Part001.fieldControl usernameField =
    "username: [null, [Validators.required, Validators.minLength(3), Validators.maxLength(10)]]"
  ∧ directives (default noValidations (field_validations usernameField)) =
    [Required; MinLength 3; MaxLength 10].
Proof.
  pose proof (validation_directive_order usernameField _ eq_refl)
    as (Hcontrol & _ & Hexample).
  split; [rewrite Hcontrol; reflexivity|].
  apply Hexample; reflexivity.
Defined.

(** C9.  A [minLength] of 0 leaves no MinLength directive and a [maxLength]
    of 0 no MaxLength directive: neither among the directives of the bundle
    nor among the validators pushed for the field. *)
Theorem zero_length_bound_dropped (field : Field) (v : Validations) :
  field_validations field = Some v →
  (v_minLength v = Some 0 →
     (∀ n, MinLength n ∉ directives v)
     ∧ Forall (λ s, startsWith "Validators.minLength(" s = false)
         (Part001.fieldValidations field))
  ∧ (v_maxLength v = Some 0 →
     (∀ n, MaxLength n ∉ directives v)
     ∧ Forall (λ s, startsWith "Validators.maxLength(" s = false)
         (Part001.fieldValidations field)).
Proof.
  intros Hv.
  split; intros Hzero;
    (split;
     [ intros n; unfold directives
     | unfold Part001.fieldValidations, Part001.pushIf, Part001.pushNumber,
         Part001.pushString, Part001.pushRange; rewrite Hv ]);
    rewrite Hzero; cbn [Z.eqb];
    destruct (v_required v) as [[]|], (v_regex v) as [[|c r]|],
      (v_range v) as [[lo hi]|];
    match goal with
    | |- context [v_minLength v] => destruct (v_minLength v) as [a|]
    | |- context [v_maxLength v] => destruct (v_maxLength v) as [a|]
    end;
    try destruct (a =? 0); cbn [app];
    first [ by repeat constructor
          | rewrite ?elem_of_cons, elem_of_nil; intros H; decompose [or] H;
            done ].
Qed.

Lemma zero_length_bound_dropped_witness :
  Part001.fieldControl zeroBoundsField = "nickname: [null, [Validators.required]]"
  ∧ (∀ n, MinLength n ∉ fieldDirectives zeroBoundsField)
  ∧ (∀ n, MaxLength n ∉ fieldDirectives zeroBoundsField).
Proof.
  pose proof (zero_length_bound_dropped zeroBoundsField _ eq_refl)
    as [Hmin Hmax].
  split; [reflexivity|]. split.
  - exact (proj1 (Hmin eq_refl)).
  - exact (proj1 (Hmax eq_refl)).
Defined.

(** C10.  The form model of a component, the argument of [this.fb.group] in
    the constructor, holds one control for each declared field, in the order
    of declaration; every control starts from [null] and lists the validators
    of the field, and a field without validation information has the empty
    list. *)
Theorem form_model_controls (component : Component) :
  let controls := map Part001.fieldControl (comp_fields component) in
  Part001.class_ctor (Part001.componentClass component) =
    "this.form = this.fb.group({ " +:+ join ", " controls +:+ " });"
  ∧ length controls = length (comp_fields component)
  ∧ (∀ i f, comp_fields component !! i = Some f →
       controls !! i =
       Some (field_name f +:+ ": [null, [" +:+
             join ", " (map renderDirective (fieldDirectives f)) +:+ "]]"))
  ∧ (∀ f, field_validations f = None →
       Part001.fieldControl f = field_name f +:+ ": [null, []]").
Proof.
  intros controls. unfold controls. repeat split.
  - apply length_map.
  - intros i f Hi.
    by rewrite list_lookup_fmap, Hi, <-fieldControl_directives.
  - intros f Hf. rewrite fieldControl_directives. unfold fieldDirectives.
    by rewrite Hf.
Qed.

(** ** The field markup renderer *)

Section CaseMapping.
Implicit Types (c x : ascii) (s : string).

Lemma charToUpper_upper x : isLower x = true → isUpper (charToUpper x) = true.
Proof. by destruct x as [[] [] [] [] [] [] [] []]. Qed.

Lemma charToLower_lower x : isUpper x = true → isLower (charToLower x) = true.
Proof. by destruct x as [[] [] [] [] [] [] [] []]. Qed.

(** Case mapping neither makes nor removes a character that is no letter. *)
Lemma eqb_charToUpper c x :
  isLetter c = false → Ascii.eqb (charToUpper x) c = Ascii.eqb x c.
Proof.
  intros [Hu Hl]%orb_false_iff.
  destruct (isLower x) eqn:Hx; [|by unfold charToUpper; rewrite Hx].
  transitivity false; [|symmetry]; apply Ascii.eqb_neq; intros Heq.
  - apply charToUpper_upper in Hx. congruence.
  - congruence.
Qed.

Lemma eqb_charToLower c x :
  isLetter c = false → Ascii.eqb (charToLower x) c = Ascii.eqb x c.
Proof.
  intros [Hu Hl]%orb_false_iff.
  destruct (isUpper x) eqn:Hx; [|by unfold charToLower; rewrite Hx].
  transitivity false; [|symmetry]; apply Ascii.eqb_neq; intros Heq.
  - apply charToLower_lower in Hx. congruence.
  - congruence.
Qed.

Lemma noChar_toUpperCase c s :
  isLetter c = false → noChar c (toUpperCase s) = noChar c s.
Proof.
  intros Hc. induction s as [|x s IH]; [done|].
  cbn [toUpperCase noChar]. by rewrite IH, eqb_charToUpper.
Qed.

Lemma noChar_toLowerCase c s :
  isLetter c = false → noChar c (toLowerCase s) = noChar c s.
Proof.
  intros Hc. induction s as [|x s IH]; [done|].
  cbn [toLowerCase noChar]. by rewrite IH, eqb_charToLower.
Qed.

Lemma noChar_join c sep (l : list string) :
  noChar c sep = true → Forall (λ s, noChar c s = true) l →
  noChar c (join sep l) = true.
Proof.
  intros Hsep. induction 1 as [|s l Hs Hl IH]; [done|].
  destruct l as [|t l]; [done|].
  by rewrite join_cons_cons, !noChar_app, Hs, Hsep, IH.
Qed.

Lemma noChar_split c sep s :
  noChar c s = true → Forall (λ w, noChar c w = true) (split sep s).
Proof.
  induction s as [|x s IH]; [by repeat constructor|].
  cbn [noChar split]. intros [Hx Hs]%andb_true_iff. specialize (IH Hs).
  destruct (Ascii.eqb x sep); [by constructor|].
  destruct (split sep s) as [|w ws].
  - constructor; [|done]. cbn [noChar]. by rewrite Hx.
  - inversion_clear IH as [|?? Hw Hws]. constructor; [|done].
    cbn [noChar]. by rewrite Hx, Hw.
Qed.

Lemma noChar_titleWord c s :
  isLetter c = false → noChar c s = true →
  noChar c (CreateProj.titleWord s) = true.
Proof.
  intros Hc Hs. unfold CreateProj.titleWord.
  rewrite noChar_app, noChar_toUpperCase, noChar_toLowerCase by done.
  destruct s as [|x s]; [done|]. cbn [charAt0 slice1 noChar] in *.
  apply andb_true_iff in Hs as [-> ->]. done.
Qed.

Lemma noChar_labelForm c s :
  isLetter c = false → noChar c " " = true → noChar c s = true →
  noChar c (labelForm s) = true.
Proof.
  intros Hc Hsp Hs. unfold labelForm, CreateProj.toTitleCase.
  apply noChar_join; [done|]. apply Forall_fmap.
  eapply Forall_impl; [by apply noChar_split|].
  intros w Hw. by apply noChar_titleWord.
Qed.
End CaseMapping.

Ltac count_atoms :=
  repeat (rewrite occurrences_app
            by first [reflexivity | by apply noChar_noBorder]).

Section CheckboxList.
Import CreateProj.

Lemma join_cons_app sep s (l : list string) rest :
  join sep (s :: l) +:+ rest =
  s +:+ match l with [] => rest | _ => sep +:+ join sep l +:+ rest end.
Proof.
  destruct l as [|t l]; [done|]. by rewrite join_cons_cons, !append_assoc.
Qed.

Lemma occurrences_checkboxToggles (field : Field) (opts : list string) rest :
  noChar "<" (field_name field) = true →
  Forall (λ o, noChar "<" o = true) opts →
  occurrences "<input" (join "<br>" (map (checkboxToggle field) opts) +:+ rest) =
  (length opts + occurrences "<input" rest)%nat.
Proof.
  intros Hname. induction 1 as [|o opts Ho Hopts IH]; [reflexivity|].
  rewrite map_cons, join_cons_app. unfold checkboxToggle at 1, name.
  rewrite !append_assoc.
  count_atoms.
  rewrite ?(noChar_occurrences _ _ _ Hname), ?(noChar_occurrences _ _ _ Ho).
  destruct opts as [|o' opts]; cbn [map length] in *.
  - simpl. lia.
  - rewrite occurrences_app by reflexivity. rewrite IH. simpl. lia.
Qed.

Lemma controlHTML_checkboxlist (field : Field) :
  field_type field = "checkboxlist" → controlHTML field = checkboxlistHTML field.
Proof. intros Htype. unfold controlHTML. by rewrite Htype. Qed.

Lemma noChar_checkboxToggles c (field : Field) :
  noChar c (checkboxToggle (plainField "" "") "") = true →
  noChar c (field_name field) = true →
  Forall (λ o, noChar c o = true) (options field) →
  Forall (λ s, noChar c s = true) (map (checkboxToggle field) (options field)).
Proof.
  intros Hlit Hname Hopts. apply Forall_fmap.
  eapply Forall_impl; [exact Hopts|]. intros o Ho.
  unfold compose, checkboxToggle, name in *.
  cbn [field_name plainField] in Hlit.
  rewrite !noChar_app in Hlit |- *. rewrite Hname, Ho. exact Hlit.
Qed.
End CheckboxList.

(** C7.  A [checkboxlist] field renders as its label followed by one toggle
    for each declared option, in the order of declaration; every toggle is a
    checkbox input whose [name] is the name of the field.  When the name and
    the options hold no [<], the fragment has exactly as many inputs as
    options; when they hold no [?], it has no required-error block, whatever
    the [required] flag. *)
Theorem checkboxlist_toggles (field : Field) :
  field_type field = "checkboxlist" →
  let toggles := map (CreateProj.checkboxToggle field) (CreateProj.options field) in
  CreateProj.fieldGroup field =
    "<div class=" +:+ dq +:+ "form-group" +:+ dq +:+ ">" +:+ nl +:+
    "                <label>" +:+ labelForm (field_name field) +:+
    CreateProj.requiredMarker field +:+ "</label>" +:+ nl +:+
    "                <div>" +:+ nl +:+
    "                  " +:+ join "<br>" toggles +:+ nl +:+
    "                </div>" +:+ nl +:+
    "              " +:+ "</div>"
  ∧ length toggles = length (CreateProj.options field)
  ∧ (∀ i option, CreateProj.options field !! i = Some option →
       toggles !! i =
       Some ("<label><input type=" +:+ dq +:+ "checkbox" +:+ dq +:+ " name=" +:+ dq +:+
             field_name field +:+ dq +:+ " value=" +:+ dq +:+ option +:+ dq +:+
             " [ngModel]=" +:+ dq +:+ field_name field +:+ dq +:+ "/> " +:+ option +:+
             "</label>"))
  ∧ (noChar "<" (field_name field) = true →
     Forall (λ o, noChar "<" o = true) (CreateProj.options field) →
     occurrences "<input" (CreateProj.fieldGroup field) =
     length (CreateProj.options field))
  ∧ (noChar "?" (field_name field) = true →
     Forall (λ o, noChar "?" o = true) (CreateProj.options field) →
     includes "errors?.required" (CreateProj.fieldGroup field) = false).
Proof.
  intros Htype toggles.
  assert (Hgroup : CreateProj.fieldGroup field =
    "<div class=" +:+ dq +:+ "form-group" +:+ dq +:+ ">" +:+ nl +:+
    "                <label>" +:+ labelForm (field_name field) +:+
    CreateProj.requiredMarker field +:+ "</label>" +:+ nl +:+
    "                <div>" +:+ nl +:+
    "                  " +:+ join "<br>" toggles +:+ nl +:+
    "                </div>" +:+ nl +:+
    "              " +:+ "</div>").
  { unfold CreateProj.fieldGroup.
    rewrite controlHTML_checkboxlist by done.
    unfold CreateProj.checkboxlistHTML. by rewrite !append_assoc. }
  split; [exact Hgroup|]. split; [apply length_map|]. split; [|split].
  - intros i option Hi. unfold toggles. by rewrite list_lookup_fmap, Hi.
  - intros Hname Hopts. rewrite Hgroup.
    assert (Hlabel : noChar "<" (labelForm (field_name field)) = true)
      by by apply noChar_labelForm.
    unfold CreateProj.requiredMarker.
    destruct (CreateProj.required field); count_atoms;
      rewrite (occurrences_checkboxToggles _ _ _ Hname Hopts);
      rewrite (noChar_occurrences _ _ _ Hlabel); simpl; lia.
  - intros Hname Hopts. unfold includes.
    rewrite (occurrences_noChar "?"); [done..|]. rewrite Hgroup.
    rewrite !noChar_app, noChar_labelForm, noChar_join by first
      [ done | by apply noChar_checkboxToggles ].
    unfold CreateProj.requiredMarker. by destruct (CreateProj.required field).
Qed.

Lemma checkboxlist_toggles_witness :
  occurrences "<input" (CreateProj.fieldGroup interestsField) = 3%nat
  ∧ includes "errors?.required" (CreateProj.fieldGroup interestsField) = false.
Proof.
  pose proof (checkboxlist_toggles interestsField eq_refl)
    as (_ & _ & _ & Hcount & Herror).
  split.
  - apply Hcount; [reflexivity|]. by repeat constructor.
  - apply Herror; [reflexivity|]. by repeat constructor.
Defined.

(** C4, as amended.  In [generateComponentHTMLContent] every rendered
    control stands in the same container, [<div class="form-group">]; when
    the flat [required] flag of a field is true and its type is neither
    [checkbox] nor [radiobutton], the label that opens the control ends with
    the marker [ *]; the validation bundle of a field has no part in the
    markup.  In [generateComponentHTML] of [part_001] every rendered control
    stands in the same container, a [div] with the column class of the form;
    its label is the capitalised name of the field and nothing else, and
    neither the [required] flag nor the validation bundle, nor anything but
    the name of the field, has a part in the markup. *)
Theorem required_marker_on_label (field : Field) :
  CreateProj.fieldGroup field =
    "<div class=" +:+ dq +:+ "form-group" +:+ dq +:+ ">" +:+
    CreateProj.controlHTML field +:+ "</div>"
  ∧ (field_required field = Some true →
     field_type field ≠ "checkbox" → field_type field ≠ "radiobutton" →
     ∃ opening rest,
       (opening = "<label>" ∨
        opening = "<label for=" +:+ dq +:+ field_name field +:+ dq +:+ ">")
       ∧ CreateProj.controlHTML field =
         nl +:+ "                " +:+ opening +:+
         labelForm (field_name field) +:+ " *</label>" +:+ rest)
  ∧ (∀ v, CreateProj.fieldGroup (withValidations v field) =
          CreateProj.fieldGroup field)
  ∧ (∀ columnClass, ∃ rest,
       Part001.fieldHtml columnClass field =
       "<div class=" +:+ dq +:+ columnClass +:+ dq +:+ ">" +:+
       "<label for=" +:+ dq +:+ field_name field +:+ dq +:+ ">" +:+
       Part001.capitalize (field_name field) +:+ "</label>" +:+ nl +:+
       "<input id=" +:+ dq +:+ field_name field +:+ dq +:+ rest)
  ∧ (∀ columnClass,
       Part001.fieldHtml columnClass field =
       Part001.fieldHtml columnClass
         (plainField (field_name field) (field_type field))).
Proof.
  split; [reflexivity|]. split; [|split; [reflexivity|split; [|reflexivity]]].
  - intros Hreq Hcheckbox Hradio.
    unfold CreateProj.controlHTML.
    repeat case_decide; try done;
      unfold CreateProj.textboxHTML, CreateProj.textareaHTML,
        CreateProj.dropdownHTML, CreateProj.checkboxlistHTML,
        CreateProj.radiobuttonlistHTML, CreateProj.requiredMarker,
        CreateProj.required, CreateProj.label, CreateProj.name, labelForm;
      rewrite Hreq; cbn [truthyBool];
      first
        [ by eexists "<label>", _; (split; [by left|]); rewrite ?append_assoc
        | by eexists ("<label for=" +:+ dq +:+ field_name field +:+ dq +:+ ">"), _;
            (split; [by right|]); rewrite ?append_assoc ].
  - intros columnClass.
    exists (" formControlName=" +:+ dq +:+ field_name field +:+ dq +:+
            " type=" +:+ dq +:+ "text" +:+ dq +:+ " class=" +:+ dq +:+
            "form-control" +:+ dq +:+ " />" +:+ nl +:+
            "<div *ngIf=" +:+ dq +:+ "form.controls['" +:+ field_name field +:+
            "'].errors" +:+ dq +:+ " class=" +:+ dq +:+ "text-danger" +:+ dq +:+
            ">Invalid " +:+ field_name field +:+ "</div>" +:+ "</div>").
    unfold Part001.fieldHtml. by rewrite !append_assoc.
Qed.

(** C4, the claim as stated fails.  A required [checkbox] field carries no
    marker at all; the field [age] of [src/spec.json], required by its
    validation bundle only, has an unmarked label; and the labels of
    [generateComponentHTML] never carry a marker. *)
Lemma required_marker_counterexample :
  includes "*" (CreateProj.fieldGroup agreeField) = false
  ∧ includes " *</label>" (CreateProj.fieldGroup ageField) = false
  ∧ includes ">Age</label>" (CreateProj.fieldGroup ageField) = true
  ∧ includes " *</label>" (Part001.fieldHtml "col-md-6" agreeField) = false.
Proof. by vm_compute. Qed.

(** ** The buttons of a form *)

Lemma endsWith_refl s : endsWith s s.
Proof. by exists "". Qed.

Lemma endsWith_app_l a s suffix :
  endsWith suffix s → endsWith suffix (a +:+ s).
Proof. intros [before ->]. exists (a +:+ before). by rewrite append_assoc. Qed.

Lemma endsWith_String c s suffix :
  endsWith suffix s → endsWith suffix (String c s).
Proof. intros [before ->]. by exists (String c before). Qed.

Ltac ends_with :=
  rewrite ?append_assoc;
  repeat first [ exact (endsWith_refl _) | apply endsWith_app_l
               | apply endsWith_String ].

Section Buttons.
Import Part001.

Lemma noChar_capitalize c s :
  isLetter c = false → noChar c s = true → noChar c (capitalize s) = true.
Proof.
  intros Hc Hs. unfold capitalize.
  rewrite noChar_app, noChar_toUpperCase by done.
  destruct s as [|x s]; [done|]. cbn [charAt0 slice1 noChar] in *.
  apply andb_true_iff in Hs as [-> ->]. done.
Qed.

Lemma occurrences_fields (columnLayout : ColumnLayout) (useBootstrap : bool)
  (fields : list Field) rest :
  Forall (λ f, noChar "<" (field_name f) = true) fields →
  occurrences "<button"
    (join nl (map (fieldHtml (columnClass columnLayout useBootstrap)) fields)
     +:+ rest) =
  occurrences "<button" rest.
Proof.
  induction 1 as [|f fields Hf Hfields IH]; [reflexivity|].
  rewrite map_cons, join_cons_app. unfold fieldHtml at 1.
  assert (Hcap : noChar "<" (capitalize (field_name f)) = true)
    by by apply noChar_capitalize.
  rewrite !append_assoc.
  destruct columnLayout, useBootstrap; count_atoms;
    rewrite ?(noChar_occurrences _ _ _ Hf), ?(noChar_occurrences _ _ _ Hcap);
    (destruct fields as [|f' fields]; cbn [map] in *;
     [|rewrite occurrences_app by reflexivity; rewrite IH]); simpl; lia.
Qed.

Lemma occurrences_buttons (buttons : list string) rest :
  Forall (λ b, noChar "<" b = true) buttons →
  occurrences "<button" (join nl (map buttonHtml buttons) +:+ rest) =
  (length buttons + occurrences "<button" rest)%nat.
Proof.
  induction 1 as [|b buttons Hb Hbuttons IH]; [reflexivity|].
  rewrite map_cons, join_cons_app. unfold buttonHtml at 1.
  rewrite ?append_assoc. count_atoms.
  rewrite ?(noChar_occurrences _ _ _ Hb).
  destruct buttons as [|b' buttons]; cbn [map length] in *;
    [|rewrite occurrences_app by reflexivity; rewrite IH]; simpl; lia.
Qed.
End Buttons.

(** ** Counting through concatenations *)

Section Silent.
Implicit Types s t needle : string.

Lemma startsWith_app_l s t needle :
  startsWith (s +:+ t) needle = true → startsWith s needle = true.
Proof.
  revert needle; induction s as [|a s IH]; intros [|b needle]; try done.
  change (Ascii.eqb a b && startsWith (s +:+ t) needle = true →
          Ascii.eqb a b && startsWith s needle = true).
  intros [-> H]%andb_true_iff. by rewrite (IH _ H).
Qed.

Lemma noBorder_app needle s t :
  noBorder needle s = true → noBorder needle t = true →
  noBorder needle (s +:+ t) = true.
Proof.
  intros Hs Ht. induction s as [|a s IH]; [done|].
  cbn [noBorder] in Hs. apply andb_true_iff in Hs as [Ha Hs].
  change (negb (startsWith (String a s +:+ t) needle &&
                negb (startsWith needle (String a s +:+ t))) &&
          noBorder needle (s +:+ t) = true).
  rewrite (IH Hs), andb_true_r.
  destruct (startsWith (String a s +:+ t) needle) eqn:Hlong; [|done].
  apply startsWith_app_l in Hlong. rewrite Hlong in Ha.
  destruct (startsWith needle (String a s)) eqn:Hin; [|done].
  by rewrite (startsWith_app _ _ t Hin).
Qed.

Lemma silent_app needle s t :
  silent needle s → silent needle t → silent needle (s +:+ t).
Proof.
  intros [Hs Hs0] [Ht Ht0]. split; [by apply noBorder_app|].
  by rewrite occurrences_app, Hs0, Ht0.
Qed.

Lemma silent_noChar c needle s :
  noChar c s = true → silent (String c needle) s.
Proof.
  intros Hs. split; [by apply noChar_noBorder|by apply noChar_occurrences].
Qed.

Lemma silent_join needle sep (l : list string) :
  silent needle sep → Forall (silent needle) l → silent needle (join sep l).
Proof.
  intros Hsep. induction 1 as [|s l Hs Hl IH]; [done|].
  destruct l as [|t l]; [done|].
  rewrite join_cons_cons. by repeat apply silent_app.
Qed.

Lemma occurrences_silent needle s t :
  silent needle s → occurrences needle (s +:+ t) = occurrences needle t.
Proof. intros [Hs Hs0]. by rewrite occurrences_app, Hs0. Qed.
End Silent.

Create HintDb silent.

Ltac silence :=
  repeat match goal with
         | |- silent _ (_ +:+ _) => apply silent_app
         | |- silent _ (String _ _) => by vm_compute
         | |- silent _ EmptyString => by vm_compute
         | |- silent _ dq => by vm_compute
         | |- silent _ nl => by vm_compute
         | |- silent _ _ => by auto with silent
         end.

Section SilentFields.
Import CreateProj.
Variable field : Field.
Hypothesis Hfree : fieldFree "<" field.

Local Lemma free_name : silent "<button" (field_name field).
Proof. destruct Hfree as (H & _). by apply silent_noChar. Qed.

Local Lemma free_label : silent "<button" (toTitleCase (field_name field)).
Proof.
  destruct Hfree as (H & _). by apply silent_noChar, noChar_labelForm.
Qed.

Local Lemma free_regex : silent "<button" (text (field_regex field)).
Proof. destruct Hfree as (_ & _ & H & _). by apply silent_noChar. Qed.

Local Lemma free_message default :
  silent "<button" default →
  silent "<button" (orElse (field_validationMessage field) default).
Proof.
  destruct Hfree as (_ & _ & _ & H). intros Hdefault.
  destruct (field_validationMessage field) as [[|c s]|]; try done.
  by apply silent_noChar.
Qed.

Hint Resolve free_name free_label free_regex : silent.

Local Lemma free_options (toggle : string → string) sep :
  silent "<button" sep →
  (∀ o, noChar "<" o = true → silent "<button" (toggle o)) →
  silent "<button" (join sep (map toggle (options field))).
Proof.
  destruct Hfree as (_ & H & _). intros Hsep Htoggle.
  apply silent_join; [done|]. apply Forall_fmap.
  eapply Forall_impl; [exact H|]. intros o Ho. by apply Htoggle.
Qed.

Lemma silent_fieldGroup : silent "<button" (fieldGroup field).
Proof.
  assert (Herror : silent "<button" (requiredError field)).
  { unfold requiredError, errorMessage, defaultValidationMessage, label, name,
      validationMessage.
    silence. apply free_message. silence. }
  assert (Hpattern : silent "<button" (patternError field)).
  { unfold patternError, patternMessage, regex, name, validationMessage.
    destruct (truthyString (field_regex field)); silence.
    apply free_message. silence. }
  assert (Hattr : silent "<button" (patternAttr field)).
  { unfold patternAttr, regex. destruct (truthyString (field_regex field));
      silence. }
  assert (Hmarker : silent "<button" (requiredMarker field)).
  { unfold requiredMarker. by destruct (required field); vm_compute. }
  assert (Hrequired : silent "<button" (requiredAttr field)).
  { unfold requiredAttr. by destruct (required field); vm_compute. }
  assert (Hoptions : silent "<button" (join "" (map optionHtml (options field)))).
  { apply free_options; [by vm_compute|]. intros o Ho.
    pose proof (silent_noChar "<" "button" o Ho). unfold optionHtml. silence. }
  assert (Hcheck : silent "<button"
                     (join "<br>" (map (checkboxToggle field) (options field)))).
  { apply free_options; [by vm_compute|]. intros o Ho.
    pose proof (silent_noChar "<" "button" o Ho).
    unfold checkboxToggle, name. silence. }
  assert (Hradio : silent "<button"
                     (join "<br>" (map (radioToggle field) (options field)))).
  { apply free_options; [by vm_compute|]. intros o Ho.
    pose proof (silent_noChar "<" "button" o Ho).
    unfold radioToggle, name. silence. }
  unfold fieldGroup, controlHTML.
  repeat case_decide;
    unfold textboxHTML, textareaHTML, dropdownHTML, checkboxHTML,
      checkboxlistHTML, radiobuttonHTML, radiobuttonlistHTML, label, name;
    silence.
Qed.
End SilentFields.

(** C5, as amended.  [generateComponentHTML] closes the form with one
    [button] element for each declared label, in the order of declaration,
    and with none when no button is declared: when the names of the fields
    and the labels hold no [<], the markup has as many [<button] as labels.
    [generateComponentHTMLContent] closes the form with the one [Submit]
    button, whatever buttons the component declares: when the texts of the
    fields hold no [<], the markup has exactly one [<button]. *)
Theorem form_buttons (component : Component) (useBootstrap : bool)
  (columnLayout : ColumnLayout) :
  let buttons := map Part001.buttonHtml (comp_buttons component) in
  endsWith
    (nl +:+ "    " +:+ join nl buttons +:+ nl +:+ "  </form>" +:+ nl +:+ "</div>" +:+ nl +:+ "  ")
    (Part001.generateComponentHTML component columnLayout useBootstrap)
  ∧ length buttons = length (comp_buttons component)
  ∧ (∀ i label, comp_buttons component !! i = Some label →
       buttons !! i =
       Some ("<button type=" +:+ dq +:+ "button" +:+ dq +:+ " class=" +:+ dq +:+
             "btn btn-primary" +:+ dq +:+ ">" +:+ label +:+ "</button>"))
  ∧ (Forall (λ f, noChar "<" (field_name f) = true) (comp_fields component) →
     Forall (λ b, noChar "<" b = true) (comp_buttons component) →
     occurrences "<button"
       (Part001.generateComponentHTML component columnLayout useBootstrap) =
     length (comp_buttons component))
  ∧ endsWith
      (nl +:+ "        <button type=" +:+ dq +:+ "submit" +:+ dq +:+ " class=" +:+ dq +:+
       "btn btn-primary" +:+ dq +:+ ">Submit</button>" +:+ nl +:+ "      </form>" +:+ nl +:+
       "    ")
      (CreateProj.generateComponentHTMLContent component useBootstrap
         columnLayout)
  ∧ (∀ declared,
       CreateProj.generateComponentHTMLContent
         (withButtons declared component) useBootstrap columnLayout =
       CreateProj.generateComponentHTMLContent component useBootstrap
         columnLayout)
  ∧ (Forall (fieldFree "<") (comp_fields component) →
     occurrences "<button"
       (CreateProj.generateComponentHTMLContent component useBootstrap
          columnLayout) = 1%nat).
Proof.
  intros buttons. repeat split.
  - unfold Part001.generateComponentHTML, Part001.containerHTML. fold buttons.
    ends_with.
  - apply length_map.
  - intros i label Hi. unfold buttons. by rewrite list_lookup_fmap, Hi.
  - intros Hfields Hbuttons.
    unfold Part001.generateComponentHTML, Part001.containerHTML.
    rewrite ?append_assoc. count_atoms.
    rewrite occurrences_fields by done. count_atoms.
    rewrite occurrences_buttons by done. simpl. lia.
  - unfold CreateProj.generateComponentHTMLContent, CreateProj.formHTML.
    ends_with.
  - intros Hfields.
    assert (Hlayout : silent "<button"
                        (CreateProj.layoutClass useBootstrap columnLayout))
      by by destruct useBootstrap, columnLayout; vm_compute.
    assert (Hgroups : silent "<button"
                        (join "" (map CreateProj.fieldGroup
                                    (comp_fields component)))).
    { apply silent_join; [by vm_compute|]. apply Forall_fmap.
      eapply Forall_impl; [exact Hfields|]. apply silent_fieldGroup. }
    unfold CreateProj.generateComponentHTMLContent, CreateProj.formHTML.
    rewrite ?append_assoc.
    repeat (rewrite occurrences_silent by silence). reflexivity.
Qed.

(** C5, the claim as stated fails.  With no button declared,
    [generateComponentHTML] renders no button at all, so no default
    [Submit]; with the buttons [Save] and [Cancel] declared,
    [generateComponentHTMLContent] renders the one [Submit] button and
    neither of them. *)
Lemma form_buttons_counterexample :
  occurrences "<button"
    (Part001.generateComponentHTML (plainComponent "Register") Columns2 true)
    = 0%nat
  ∧ includes ">Submit</button>"
      (Part001.generateComponentHTML (plainComponent "Register") Columns2 true)
    = false
  ∧ occurrences "<button"
      (CreateProj.generateComponentHTMLContent
         (withButtons ["Save"; "Cancel"] (plainComponent "Register"))
         true Columns2) = 1%nat
  ∧ includes "Save"
      (CreateProj.generateComponentHTMLContent
         (withButtons ["Save"; "Cancel"] (plainComponent "Register"))
         true Columns2) = false.
Proof. by vm_compute. Qed.

(** ** The orchestrator of [createproj.ts] *)

Section RunFacts.
Import CreateProj CreateProjRun.
Implicit Types (w : World) (spec : Specification).

Lemma forEach_generateComponent p b c (cs : list Component) w :
  forEach (generateComponent p b c) cs w =
  (Returned tt, foldl (λ w component, componentStep p b c component w) w cs).
Proof.
  revert w; induction cs as [|x cs IH]; intros w; [done|].
  cbn [forEach foldl]. unfold mbind, Run_bind.
  change (generateComponent p b c x w) with (Returned tt, componentStep p b c x w).
  cbv beta iota. apply IH.
Qed.

(** The run aborts on an empty component list and only then. *)
Lemma run_cases spec b c w :
  generateAngularProjectWithTSMorph spec b c w =
  match generateAppRoutingModuleContent (components spec) with
  | Returned routing => (Returned tt, generatedWorld spec b c routing w)
  | Thrown e => (Thrown e, abortedWorld spec w)
  end.
Proof.
  unfold generateAngularProjectWithTSMorph, generatedWorld, abortedWorld.
  unfold mbind, Run_bind, act, liftOutcome. cbv beta iota.
  destruct (generateAppRoutingModuleContent (components spec)) as [routing|e];
    [|done].
  cbv beta iota. rewrite forEach_generateComponent. reflexivity.
Qed.

(** *** Paths *)

Lemma under_appDir p rest : under p (appDir p +:+ rest) = true.
Proof.
  unfold under, appDir. rewrite append_assoc.
  change ("/src/app" +:+ rest) with ("/" +:+ ("src/app" +:+ rest)).
  rewrite <-append_assoc. apply startsWith_refl_app.
Qed.

Lemma under_componentFile p component extension :
  under p (componentFile p component extension) = true.
Proof.
  unfold under, componentFile, componentDir. rewrite !append_assoc.
  match goal with
  | |- startsWith _ (p +:+ "/src/app/" +:+ ?rest) = true =>
      change ("/src/app/" +:+ rest) with ("/" +:+ ("src/app/" +:+ rest))
  end.
  rewrite <-append_assoc. apply startsWith_refl_app.
Qed.

Lemma append_last_ne s t (a b : ascii) :
  a ≠ b → s +:+ String a "" ≠ t +:+ String b "".
Proof.
  intros Hab. revert t; induction s as [|x s IH]; intros [|y t] Heq.
  - by injection Heq.
  - injection Heq as _ Heq. by destruct t.
  - injection Heq as _ Heq. by destruct s.
  - injection Heq as _ Heq. by eapply IH.
Qed.


Lemma componentFile_ts p component : endsWith "ts" (componentFile p component "ts").
Proof. unfold componentFile. ends_with. Qed.

(** *** What each write preserves *)










(** *** The loop over the components *)




(** *** The worlds a run leaves *)






End RunFacts.


Lemma length_append s t :
  String.length (s +:+ t) = (String.length s + String.length t)%nat.
Proof.
  induction s as [|c s IH]; [done|].
  change (S (String.length (s +:+ t)) = S (String.length s + String.length t)).
  by rewrite IH.
Qed.





(** ** Aborted runs *)





(** ** Derived names: title case and capitalisation *)

Section DerivedNames.
Implicit Types (c x : ascii) (s w : string) (ws : list string).

Lemma charToUpper_idemp x : charToUpper (charToUpper x) = charToUpper x.
Proof. by destruct x as [[] [] [] [] [] [] [] []]. Qed.

Lemma charToLower_idemp x : charToLower (charToLower x) = charToLower x.
Proof. by destruct x as [[] [] [] [] [] [] [] []]. Qed.

Lemma charToLower_charToUpper x : charToLower (charToUpper x) = charToLower x.
Proof. by destruct x as [[] [] [] [] [] [] [] []]. Qed.

Lemma toLowerCase_idemp s : toLowerCase (toLowerCase s) = toLowerCase s.
Proof.
  induction s as [|x s IH]; [done|].
  cbn [toLowerCase]. by rewrite charToLower_idemp, IH.
Qed.

Lemma length_toLowerCase s : String.length (toLowerCase s) = String.length s.
Proof. induction s as [|x s IH]; [done|]. cbn. by rewrite IH. Qed.

Lemma titleWord_cons x s :
  CreateProj.titleWord (String x s) = String (charToUpper x) (toLowerCase s).
Proof. done. Qed.

Lemma titleWord_idemp w :
  CreateProj.titleWord (CreateProj.titleWord w) = CreateProj.titleWord w.
Proof.
  destruct w as [|x s]; [done|].
  by rewrite !titleWord_cons, charToUpper_idemp, toLowerCase_idemp.
Qed.

Lemma length_titleWord w :
  String.length (CreateProj.titleWord w) = String.length w.
Proof.
  destruct w as [|x s]; [done|].
  rewrite titleWord_cons. cbn. by rewrite length_toLowerCase.
Qed.

Lemma split_nonempty sep s : split sep s ≠ [].
Proof.
  induction s as [|x s IH]; [done|]. cbn [split].
  destruct (Ascii.eqb x sep); [done|]. by destruct (split sep s).
Qed.

(** Splitting at a character and joining with it gives the string back. *)
Lemma join_split sep s : join (String sep "") (split sep s) = s.
Proof.
  induction s as [|x s IH]; [done|]. cbn [split].
  pose proof (split_nonempty sep s) as Hne.
  destruct (Ascii.eqb_spec x sep) as [->|Hx].
  - destruct (split sep s) as [|w ws]; [done|].
    rewrite join_cons_cons, IH. done.
  - destruct (split sep s) as [|w [|w' ws]]; [done| |].
    + cbn [join] in *. by rewrite IH.
    + rewrite join_cons_cons in *. rewrite append_cons. by rewrite IH.
Qed.

(** The words of a split hold no separator, and joining words that hold none
    and splitting again gives the words back. *)
Lemma split_noChar sep s : Forall (λ w, noChar sep w = true) (split sep s).
Proof.
  induction s as [|x s IH]; [by repeat constructor|]. cbn [split].
  destruct (Ascii.eqb x sep) eqn:Hx; [by constructor|].
  destruct (split sep s) as [|w ws]; inversion_clear IH;
    constructor; try done; cbn [noChar]; by rewrite ?Hx.
Qed.

Lemma split_noChar_word sep w : noChar sep w = true → split sep w = [w].
Proof.
  induction w as [|x w IH]; [done|]. cbn [noChar split].
  intros [Hx%negb_true_iff Hw]%andb_true_iff. by rewrite Hx, (IH Hw).
Qed.

Lemma split_append_word sep w s :
  noChar sep w = true →
  split sep (w +:+ String sep s) = w :: split sep s.
Proof.
  induction w as [|x w IH]; intros Hw.
  - change ("" +:+ String sep s) with (String sep s).
    cbn [split]. by rewrite Ascii.eqb_refl.
  - cbn [noChar] in Hw. apply andb_true_iff in Hw as [Hx%negb_true_iff Hw].
    rewrite append_cons. cbn [split]. by rewrite Hx, (IH Hw).
Qed.

Lemma split_join sep ws :
  ws ≠ [] → Forall (λ w, noChar sep w = true) ws →
  split sep (join (String sep "") ws) = ws.
Proof.
  intros Hne Hws. induction Hws as [|w ws Hw Hws IH]; [done|].
  destruct ws as [|w' ws]; [by apply split_noChar_word|].
  rewrite join_cons_cons.
  change (String sep "" +:+ join (String sep "") (w' :: ws))
    with (String sep (join (String sep "") (w' :: ws))).
  rewrite split_append_word by done. by rewrite IH.
Qed.

Lemma length_join_map sep (f : string → string) ws :
  (∀ w, String.length (f w) = String.length w) →
  String.length (join sep (map f ws)) = String.length (join sep ws).
Proof.
  intros Hf. induction ws as [|w [|w' ws] IH]; [done|by apply Hf|].
  cbn [map] in *. rewrite !join_cons_cons, !length_append, Hf.
  by rewrite IH.
Qed.
End DerivedNames.

Section AsciiFacts.

Lemma allChars_app p s t :
  allChars p (s +:+ t) = allChars p s && allChars p t.
Proof.
  induction s as [|c s IH]; [done|].
  change (p c && allChars p (s +:+ t) = p c && allChars p s && allChars p t).
  by rewrite IH, andb_assoc.
Qed.

Lemma allChars_join p sep (l : list string) :
  allChars p sep = true → Forall (λ s, allChars p s = true) l →
  allChars p (join sep l) = true.
Proof.
  intros Hsep Hl. induction Hl as [|s l Hs Hl IH]; [done|].
  destruct l as [|s' l]; [done|].
  by rewrite join_cons_cons, !allChars_app, Hs, Hsep, IH.
Qed.

Lemma allChars_split p sep s :
  allChars p s = true → Forall (λ w, allChars p w = true) (split sep s).
Proof.
  induction s as [|c s IH]; [by repeat constructor|].
  cbn [allChars split]. intros [Hc Hs]%andb_true_iff. specialize (IH Hs).
  destruct (Ascii.eqb c sep); [by constructor|].
  pose proof (split_nonempty sep s).
  destruct (split sep s) as [|w ws]; [done|].
  apply Forall_cons in IH as [Hw Hws]. constructor; [|done].
  cbn [allChars]. by rewrite Hc, Hw.
Qed.

Lemma ascii_charToUpper c :
  Nat.ltb (nat_of_ascii c) 128 = true →
  Nat.ltb (nat_of_ascii (charToUpper c)) 128 = true.
Proof. by destruct c as [[] [] [] [] [] [] [] []]. Qed.

Lemma ascii_charToLower c :
  Nat.ltb (nat_of_ascii c) 128 = true →
  Nat.ltb (nat_of_ascii (charToLower c)) 128 = true.
Proof. by destruct c as [[] [] [] [] [] [] [] []]. Qed.

Lemma isAscii_toLowerCase s : isAscii s = true → isAscii (toLowerCase s) = true.
Proof.
  unfold isAscii. induction s as [|c s IH]; [done|].
  cbn [allChars toLowerCase]. intros [Hc Hs]%andb_true_iff.
  by rewrite ascii_charToLower, IH.
Qed.

Lemma isAscii_titleWord w :
  isAscii w = true → isAscii (CreateProj.titleWord w) = true.
Proof.
  destruct w as [|c s]; [done|]. rewrite titleWord_cons. unfold isAscii.
  cbn [allChars]. intros [Hc Hs]%andb_true_iff.
  rewrite ascii_charToUpper by done. by apply isAscii_toLowerCase.
Qed.

Lemma isAscii_toTitleCase text :
  isAscii text = true → isAscii (CreateProj.toTitleCase text) = true.
Proof.
  intros Htext. unfold CreateProj.toTitleCase, isAscii.
  apply allChars_join; [done|]. apply Forall_fmap.
  eapply Forall_impl; [by apply allChars_split|].
  intros w Hw. by apply isAscii_titleWord.
Qed.
End AsciiFacts.

(** X1.  On a name of ASCII characters [toTitleCase] is idempotent: the
    label is a string of ASCII characters again, and title-casing it once
    more leaves it unchanged, whatever the number of words and of spaces
    between them. *)
Theorem toTitleCase_idempotent (text : string) :
  isAscii text = true →
  isAscii (CreateProj.toTitleCase text) = true
  ∧ CreateProj.toTitleCase (CreateProj.toTitleCase text) =
    CreateProj.toTitleCase text.
Proof.
  intros Htext. split; [by apply isAscii_toTitleCase|].
  unfold CreateProj.toTitleCase.
  rewrite (split_join " ").
  - rewrite <-list_fmap_compose. f_equal. apply map_ext. intros w.
    apply titleWord_idemp.
  - pose proof (split_nonempty " " text). by destruct (split " " text).
  - apply Forall_fmap. eapply Forall_impl; [apply split_noChar|].
    intros w Hw. by apply noChar_titleWord.
Qed.

Lemma toTitleCase_idempotent_witness :
  CreateProj.toTitleCase (CreateProj.toTitleCase "first NAME  of user") =
  "First Name  Of User".
Proof.
  destruct (toTitleCase_idempotent "first NAME  of user" eq_refl)
    as [_ Hagain].
  rewrite Hagain. reflexivity.
Defined.

(** X2.  On a name of ASCII characters [toTitleCase] changes letters only:
    the label is as long as the name, it has a space exactly where the name
    has one, and its words are the words of the name, each with its first
    character in upper case and the others in lower case. *)
Theorem toTitleCase_keeps_shape (text : string) :
  isAscii text = true →
  String.length (CreateProj.toTitleCase text) = String.length text
  ∧ split " " (CreateProj.toTitleCase text) =
    map CreateProj.titleWord (split " " text)
  ∧ Forall (λ word, isAscii word = true) (split " " text).
Proof.
  intros Htext. unfold CreateProj.toTitleCase.
  split; [|split; [|by apply allChars_split]].
  - rewrite (length_join_map " " _ _ length_titleWord).
    by rewrite (join_split " ").
  - apply (split_join " ").
    + pose proof (split_nonempty " " text). by destruct (split " " text).
    + apply Forall_fmap. eapply Forall_impl; [apply split_noChar|].
      intros w Hw. by apply noChar_titleWord.
Qed.

Lemma toTitleCase_keeps_shape_witness :
  String.length (CreateProj.toTitleCase "first NAME  of user") = 19%nat
  ∧ split " " (CreateProj.toTitleCase "first NAME  of user") =
    ["First"; "Name"; ""; "Of"; "User"].
Proof.
  destruct (toTitleCase_keeps_shape "first NAME  of user" eq_refl)
    as (Hlength & Hwords & _).
  split; [exact Hlength|exact Hwords].
Defined.

(** X3.  On a name of ASCII characters [capitalize] is idempotent and
    touches no path: the capitalised name is as long as the name and a
    string of ASCII characters, and its lowercased form is the lowercased
    form of the name, so the class form and the name give the same route,
    selector and directory; and lowercasing is idempotent. *)
Theorem capitalize_keeps_path (str : string) :
  isAscii str = true →
  Part001.capitalize (Part001.capitalize str) = Part001.capitalize str
  ∧ toLowerCase (Part001.capitalize str) = toLowerCase str
  ∧ toLowerCase (toLowerCase str) = toLowerCase str
  ∧ String.length (Part001.capitalize str) = String.length str
  ∧ isAscii (Part001.capitalize str) = true.
Proof.
  intros Hstr. destruct str as [|x s]; [done|].
  change (Part001.capitalize (String x s)) with (String (charToUpper x) s).
  assert (Hcap : isAscii (String (charToUpper x) s) = true).
  { revert Hstr. unfold isAscii. cbn [allChars].
    intros [Hx Hs]%andb_true_iff. by rewrite ascii_charToUpper, Hs. }
  repeat apply conj; [| | |done|done].
  - change (Part001.capitalize (String (charToUpper x) s))
      with (String (charToUpper (charToUpper x)) s).
    by rewrite charToUpper_idemp.
  - cbn [toLowerCase]. by rewrite charToLower_charToUpper.
  - apply toLowerCase_idemp.
Qed.

Lemma capitalize_keeps_path_witness :
  toLowerCase (Part001.capitalize "userName") = "username"
  ∧ Part001.capitalize (Part001.capitalize "userName") = "UserName".
Proof.
  destruct (capitalize_keeps_path "userName" eq_refl)
    as (Hagain & Hlower & _).
  split; [by rewrite Hlower|by rewrite Hagain].
Defined.

(** ** Counting the elements of the markup *)

Section FieldTexts.
Import CreateProj.
Variables (field : Field) (needle : string).
Hypothesis Hfree : fieldFree "<" field.
Let N := String "<" needle.

Lemma silent_literal s : noChar "<" s = true → silent N s.
Proof. apply silent_noChar. Qed.

Lemma silent_field_name : silent N (field_name field).
Proof. destruct Hfree as (H & _). by apply silent_noChar. Qed.

Lemma silent_field_label : silent N (toTitleCase (field_name field)).
Proof.
  destruct Hfree as (H & _). by apply silent_noChar, noChar_labelForm.
Qed.

Lemma silent_field_regex : silent N (text (field_regex field)).
Proof. destruct Hfree as (_ & _ & H & _). by apply silent_noChar. Qed.

Lemma silent_field_message default :
  silent N default → silent N (orElse (field_validationMessage field) default).
Proof.
  destruct Hfree as (_ & _ & _ & H). intros Hdefault.
  destruct (field_validationMessage field) as [[|c s]|]; try done.
  by apply silent_noChar.
Qed.

Lemma silent_requiredMarker : silent N (requiredMarker field).
Proof.
  unfold requiredMarker. by destruct (required field); apply silent_noChar.
Qed.

Lemma silent_requiredAttr : silent N (requiredAttr field).
Proof.
  unfold requiredAttr. by destruct (required field); apply silent_noChar.
Qed.

Lemma silent_patternAttr : silent N (patternAttr field).
Proof.
  unfold patternAttr, regex. destruct (truthyString (field_regex field)).
  - repeat apply silent_app; try by apply silent_noChar.
    apply silent_field_regex.
  - by apply silent_noChar.
Qed.

Lemma silent_errorMessage : silent N (errorMessage field).
Proof.
  unfold errorMessage, defaultValidationMessage, validationMessage, label, name.
  apply silent_field_message, silent_app;
    [apply silent_field_label|by apply silent_noChar].
Qed.

Lemma silent_patternMessage : silent N (patternMessage field).
Proof.
  unfold patternMessage, validationMessage, name.
  apply silent_field_message, silent_app;
    [apply silent_field_name|by apply silent_noChar].
Qed.

Lemma silent_options (toggle : string → string) sep :
  silent N sep → (∀ o, noChar "<" o = true → silent N (toggle o)) →
  silent N (join sep (map toggle (options field))).
Proof.
  destruct Hfree as (_ & H & _). intros Hsep Htoggle.
  apply silent_join; [done|]. apply Forall_fmap.
  eapply Forall_impl; [exact H|]. intros o Ho. by apply Htoggle.
Qed.
End FieldTexts.

Global Hint Resolve silent_field_name silent_field_label silent_field_regex
  silent_requiredMarker silent_requiredAttr silent_patternAttr
  silent_errorMessage silent_patternMessage : silent.

Ltac count_pieces :=
  repeat first [ rewrite occurrences_silent by silence
               | rewrite occurrences_app by reflexivity ].

Ltac unfold_pieces :=
  unfold CreateProj.requiredError, CreateProj.patternError,
    CreateProj.regex, CreateProj.label, CreateProj.name in *.

Ltac solve_count := intros; rewrite ?append_assoc; count_pieces; simpl; lia.

Section FieldCounts.
Import CreateProj.
Variable field : Field.
Hypothesis Hfree : fieldFree "<" field.

Lemma occurrences_join_pieces {A} needle (piece : A → string) sep
  (opts : list A) (k : nat) rest :
  silent needle sep →
  (∀ o rest', In o opts →
     occurrences needle (piece o +:+ rest') =
     (k + occurrences needle rest')%nat) →
  occurrences needle (join sep (map piece opts) +:+ rest) =
  (k * length opts + occurrences needle rest)%nat.
Proof.
  intros Hsep. induction opts as [|o opts IH]; intros Hpiece.
  { cbn [map join length]. by rewrite Nat.mul_0_r. }
  rewrite map_cons, join_cons_app, Hpiece by by left.
  destruct opts as [|o' opts]; [cbn; lia|]. cbn [map] in *.
  rewrite occurrences_silent by done.
  rewrite IH by (intros; apply Hpiece; by right). cbn [length]. lia.
Qed.

Lemma options_free o : In o (options field) → noChar "<" o = true.
Proof.
  destruct Hfree as (_ & H & _). rewrite Forall_forall in H.
  intros Ho. apply H. by apply list_elem_of_In.
Qed.
End FieldCounts.
Global Hint Resolve silent_noChar : silent.

Section TemplateCounts.
Import CreateProj.
Variable field : Field.
Hypothesis Hfree : fieldFree "<" field.

Lemma silent_optionHtml needle :
  silent (String "<" needle) "<option value=" →
  silent (String "<" needle) "</option>" →
  silent (String "<" needle) (join "" (map optionHtml (options field))).
Proof.
  intros Hopen Hclose. apply silent_options; [done|by apply silent_noChar|].
  intros o Ho. unfold optionHtml.
  repeat apply silent_app; try done; by apply silent_noChar.
Qed.

Lemma count_checkboxToggles needle k rest :
  (∀ rest', occurrences needle
              ("<label><input type=" +:+ dq +:+ "checkbox" +:+ dq +:+ " name=" +:+ rest') =
            (k + occurrences needle rest')%nat) →
  (∀ s, noChar "<" s = true → silent needle s) →
  silent needle "<br>" → silent needle "</label>" →
  occurrences needle
    (join "<br>" (map (checkboxToggle field) (options field)) +:+ rest) =
  (k * length (options field) + occurrences needle rest)%nat.
Proof.
  intros Hopen Htext Hbr Hclose. apply occurrences_join_pieces; [done|].
  intros o rest' Ho%options_free; [|done].
  destruct Hfree as (Hname & _).
  unfold checkboxToggle, name. rewrite ?append_assoc, Hopen.
  by rewrite !occurrences_silent by auto.
Qed.

Lemma count_radioToggles needle k rest :
  (∀ rest', occurrences needle
              ("<label><input type=" +:+ dq +:+ "radio" +:+ dq +:+ " name=" +:+ rest') =
            (k + occurrences needle rest')%nat) →
  (∀ s, noChar "<" s = true → silent needle s) →
  silent needle "<br>" → silent needle "</label>" →
  occurrences needle
    (join "<br>" (map (radioToggle field) (options field)) +:+ rest) =
  (k * length (options field) + occurrences needle rest)%nat.
Proof.
  intros Hopen Htext Hbr Hclose. apply occurrences_join_pieces; [done|].
  intros o rest' Ho%options_free; [|done].
  destruct Hfree as (Hname & _).
  unfold radioToggle, name. rewrite ?append_assoc, Hopen.
  by rewrite !occurrences_silent by auto.
Qed.
End TemplateCounts.

Ltac expand_templates :=
  unfold CreateProj.fieldGroup, CreateProj.controlHTML;
  repeat case_decide; try (exfalso; congruence);
  unfold CreateProj.textboxHTML, CreateProj.textareaHTML,
    CreateProj.dropdownHTML, CreateProj.checkboxHTML,
    CreateProj.checkboxlistHTML, CreateProj.radiobuttonHTML,
    CreateProj.radiobuttonlistHTML;
  unfold_pieces; rewrite ?append_assoc.

(** X4.  The number of [input] elements of a rendered field follows its
    type: none for a textarea and a dropdown, one for each option of a
    checkbox list and of a radio-button list, and one for every other type,
    known or not. *)
Theorem input_count_by_type (field : Field) :
  fieldFree "<" field →
  occurrences "<input" (CreateProj.fieldGroup field) = inputCount field.
Proof.
  intros Hfree. unfold inputCount.
  destruct (truthyString (field_regex field)) eqn:Hregex;
    expand_templates; rewrite ?Hregex; cbv beta iota;
    rewrite ?append_assoc; count_pieces;
    rewrite ?(occurrences_silent _ (join "" _))
      by (apply silent_optionHtml; by vm_compute);
    rewrite ?(count_checkboxToggles field Hfree "<input" 1),
      ?(count_radioToggles field Hfree "<input" 1)
      by first [ solve_count | by vm_compute | by intros; apply silent_noChar ];
    count_pieces; simpl; lia.
Qed.

Lemma input_count_by_type_witness :
  occurrences "<input" (CreateProj.fieldGroup usernameField) = 1%nat.
Proof.
  apply (input_count_by_type usernameField).
  by repeat split; repeat constructor.
Defined.

(** X5.  The number of error blocks of a rendered field follows its type:
    none for a checkbox, a checkbox list and a radio button; one, for the
    required error, for a textarea, a dropdown and a radio-button list; and
    for a textbox and for every unknown type one, plus one for the pattern
    error exactly when the field has a [regex] that is not empty. *)
Theorem error_blocks_by_type (field : Field) :
  fieldFree "<" field →
  occurrences "<div *ngIf" (CreateProj.fieldGroup field) = errorBlocks field.
Proof.
  intros Hfree. unfold errorBlocks.
  destruct (truthyString (field_regex field)) eqn:Hregex;
    expand_templates; rewrite ?Hregex; cbv beta iota;
    rewrite ?append_assoc; count_pieces;
    rewrite ?(occurrences_silent _ (join "" _))
      by (apply silent_optionHtml; by vm_compute);
    rewrite ?(count_checkboxToggles field Hfree "<div *ngIf" 0),
      ?(count_radioToggles field Hfree "<div *ngIf" 0)
      by first [ solve_count | by vm_compute | by intros; apply silent_noChar ];
    count_pieces; simpl; lia.
Qed.

Lemma error_blocks_by_type_witness :
  occurrences "<div *ngIf" (CreateProj.fieldGroup emailField) = 2%nat.
Proof.
  apply (error_blocks_by_type emailField).
  by repeat split; repeat constructor.
Defined.

(** X6.  A dropdown offers one more entry than it has options: the blank
    entry and one entry for each declared option. *)
Theorem dropdown_entries (field : Field) :
  field_type field = "dropdown" → fieldFree "<" field →
  occurrences "<option" (CreateProj.fieldGroup field) =
    S (length (CreateProj.options field)).
Proof.
  intros Htype Hfree.
  assert (Hoptions : ∀ rest,
    occurrences "<option"
      (join "" (map CreateProj.optionHtml (CreateProj.options field)) +:+ rest) =
    (1 * length (CreateProj.options field) + occurrences "<option" rest)%nat).
  { intros rest. apply occurrences_join_pieces; [by vm_compute|].
    intros o rest' Ho%(options_free field Hfree).
    unfold CreateProj.optionHtml. solve_count. }
  expand_templates; count_pieces; rewrite ?Hoptions; count_pieces; simpl; lia.
Qed.

Lemma dropdown_entries_witness :
  occurrences "<option" (CreateProj.fieldGroup countryField) = 4%nat.
Proof.
  apply (dropdown_entries countryField); [reflexivity|].
  by repeat split; repeat constructor.
Defined.

(** X7.  A field whose type is none of the seven known ones is rendered as
    the same field of type [textbox], by both renderers of [createproj.ts]. *)
Theorem unknown_type_is_textbox (field : Field) :
  field_type field ∉ knownTypes →
  CreateProj.fieldGroup field = CreateProj.fieldGroup (withType "textbox" field)
  ∧ CreateProjRouting.fieldGroup field =
    CreateProjRouting.fieldGroup (withType "textbox" field).
Proof.
  intros Hunknown. unfold knownTypes in Hunknown.
  repeat (apply not_elem_of_cons in Hunknown as [? Hunknown]).
  unfold CreateProj.fieldGroup, CreateProj.controlHTML,
    CreateProjRouting.fieldGroup, CreateProjRouting.controlHTML.
  cbn [field_type withType].
  by repeat case_decide.
Qed.

Lemma unknown_type_is_textbox_witness :
  CreateProj.fieldGroup sliderField =
  CreateProj.fieldGroup (withType "textbox" sliderField).
Proof.
  apply (unknown_type_is_textbox sliderField). unfold knownTypes.
  rewrite !not_elem_of_cons. repeat split; try discriminate.
  apply not_elem_of_nil.
Defined.

(** X8.  The two renderers of [createproj.ts] give a field the same control
    whenever the field carries a validation message that is not empty, or
    its name is its own label, or its type is one without an error block;
    they differ in the default message only, which [generateComponentHTML]
    builds from the name and [generateComponentHTMLContent] from the label. *)
Theorem renderers_agree (field : Field) :
  truthyString (field_validationMessage field) = true
  ∨ labelForm (field_name field) = field_name field
  ∨ field_type field ∈ ["checkbox"; "checkboxlist"; "radiobutton"] →
  CreateProjRouting.controlHTML field = CreateProj.controlHTML field.
Proof.
  intros Hcase.
  assert (Herror :
    field_type field ∉ ["checkbox"; "checkboxlist"; "radiobutton"] →
    CreateProjRouting.requiredError field = CreateProj.requiredError field).
  { intros Htype. destruct Hcase as [Hmessage|[Hlabel|Hin]]; [| |done].
    - unfold CreateProjRouting.requiredError, CreateProj.requiredError,
        CreateProjRouting.errorMessage, CreateProj.errorMessage,
        CreateProj.validationMessage.
      by destruct (field_validationMessage field) as [[|c s]|].
    - unfold CreateProjRouting.requiredError, CreateProj.requiredError,
        CreateProjRouting.errorMessage, CreateProj.errorMessage,
        CreateProjRouting.defaultValidationMessage,
        CreateProj.defaultValidationMessage, CreateProj.label,
        CreateProj.name, labelForm in *.
      by rewrite Hlabel. }
  unfold CreateProjRouting.controlHTML, CreateProj.controlHTML.
  repeat case_decide; try done;
    unfold CreateProjRouting.textboxHTML, CreateProjRouting.textareaHTML,
      CreateProjRouting.dropdownHTML, CreateProjRouting.radiobuttonlistHTML,
      CreateProj.textboxHTML, CreateProj.textareaHTML, CreateProj.dropdownHTML,
      CreateProj.radiobuttonlistHTML;
    rewrite Herror; try done;
    rewrite !not_elem_of_cons; repeat split; try congruence;
    apply not_elem_of_nil.
Qed.

Lemma renderers_agree_witness :
  CreateProjRouting.controlHTML usernameField =
    CreateProj.controlHTML usernameField
  ∧ includes ">age is required<" (CreateProjRouting.controlHTML ageField) = true
  ∧ includes ">Age is required<" (CreateProj.controlHTML ageField) = true.
Proof.
  split; [|by vm_compute].
  apply (renderers_agree usernameField). by left.
Defined.

Section MenuCounts.
Variable component : Component.
Hypothesis Hfree : componentFree "<" component.

Lemma silent_path needle :
  silent (String "<" needle) (toLowerCase (comp_name component)).
Proof.
  destruct Hfree as [Hname _]. apply silent_noChar.
  by rewrite noChar_toLowerCase.
Qed.

Lemma silent_menuLabel needle :
  silent (String "<" needle)
    (orElse (comp_menuName component) (comp_name component)).
Proof.
  destruct Hfree as [Hname Hmenu]. apply silent_noChar.
  by destruct (comp_menuName component) as [[|c s]|].
Qed.

Lemma count_menuItem rest :
  occurrences "<a " (CreateProj.menuItem component +:+ rest) =
  (1 + occurrences "<a " rest)%nat.
Proof.
  pose proof (silent_path "a ") as Hpath.
  pose proof (silent_menuLabel "a ") as Hlabel.
  unfold CreateProj.menuItem. solve_count.
Qed.

Lemma count_menuLink rest :
  occurrences "<a " (CreateProjRouting.menuLink component +:+ rest) =
  (1 + occurrences "<a " rest)%nat.
Proof.
  pose proof (silent_path "a ") as Hpath.
  pose proof (silent_menuLabel "a ") as Hlabel.
  unfold CreateProjRouting.menuLink. solve_count.
Qed.
End MenuCounts.

(** X9.  Both menus hold exactly one link for each component: when the names
    and the menu names hold no [<], [generateMenuHTMLContent] and
    [generateMenuHTML] have as many [a] elements as the specification has
    components, whatever the orientation and the styling. *)
Theorem menu_links (components : list Component) (menuType : MenuType)
  (useBootstrap : bool) :
  Forall (componentFree "<") components →
  occurrences "<a "
    (CreateProj.generateMenuHTMLContent components menuType useBootstrap) =
    length components
  ∧ occurrences "<a " (CreateProjRouting.generateMenuHTML components menuType) =
    length components.
Proof.
  intros Hfree. rewrite Forall_forall in Hfree.
  assert (Hitems : ∀ rest,
    occurrences "<a " (join "" (map CreateProj.menuItem components) +:+ rest) =
    (1 * length components + occurrences "<a " rest)%nat).
  { intros rest. apply occurrences_join_pieces; [by vm_compute|].
    intros c rest' Hc. apply count_menuItem, Hfree. by apply list_elem_of_In. }
  assert (Hlinks : ∀ rest,
    occurrences "<a "
      (join "" (map CreateProjRouting.menuLink components) +:+ rest) =
    (1 * length components + occurrences "<a " rest)%nat).
  { intros rest. apply occurrences_join_pieces; [by vm_compute|].
    intros c rest' Hc. apply count_menuLink, Hfree. by apply list_elem_of_In. }
  split.
  - unfold CreateProj.generateMenuHTMLContent, CreateProj.menuClass.
    destruct useBootstrap, menuType; rewrite ?append_assoc; count_pieces;
      rewrite Hitems; simpl; lia.
  - unfold CreateProjRouting.generateMenuHTML, CreateProjRouting.dynamicStyles.
    destruct menuType; rewrite ?append_assoc; count_pieces;
      rewrite Hlinks; simpl; lia.
Qed.

Lemma menu_links_witness :
  occurrences "<a "
    (CreateProj.generateMenuHTMLContent (components exampleSpec) horizontal
       true) = 2%nat.
Proof.
  apply (menu_links (components exampleSpec) horizontal true).
  by repeat constructor.
Defined.

(** X10.  [generateComponentHTML] of [part_001] renders every field as one
    text input, whatever its type, its options and its flags: the markup of a
    field depends on its name only, and the form has as many [input]
    elements as the component has fields. *)
Theorem cli_markup_inputs (component : Component)
  (columnLayout : ColumnLayout) (useBootstrap : bool) :
  Forall (λ f, noChar "<" (field_name f) = true) (comp_fields component) →
  Forall (λ b, noChar "<" b = true) (comp_buttons component) →
  occurrences "<input"
    (Part001.generateComponentHTML component columnLayout useBootstrap) =
    length (comp_fields component)
  ∧ (∀ f class, Part001.fieldHtml class f =
                Part001.fieldHtml class (plainField (field_name f) "textbox")).
Proof.
  intros Hfields Hlabels. split; [|done]. rewrite Forall_forall in Hfields.
  assert (Hclass : silent "<input"
                     (Part001.columnClass columnLayout useBootstrap))
    by by destruct columnLayout, useBootstrap; vm_compute.
  assert (Hinputs : ∀ rest,
    occurrences "<input"
      (join nl (map (Part001.fieldHtml
                       (Part001.columnClass columnLayout useBootstrap))
                  (comp_fields component)) +:+ rest) =
    (1 * length (comp_fields component) + occurrences "<input" rest)%nat).
  { intros rest. apply occurrences_join_pieces; [by vm_compute|].
    intros f rest' Hf%list_elem_of_In%Hfields.
    pose proof (silent_noChar "<" "input" _ Hf) as Hname.
    pose proof (silent_noChar "<" "input" _
                  (noChar_capitalize "<" _ eq_refl Hf)) as Hcap.
    unfold Part001.fieldHtml. solve_count. }
  assert (Hbuttons : silent "<input"
            (join nl (map Part001.buttonHtml (comp_buttons component)))).
  { apply silent_join; [by vm_compute|]. apply Forall_fmap.
    eapply Forall_impl; [exact Hlabels|]. intros b Hb.
    pose proof (silent_noChar "<" "input" _ Hb).
    unfold compose, Part001.buttonHtml. silence. }
  unfold Part001.generateComponentHTML, Part001.containerHTML.
  rewrite ?append_assoc. count_pieces. rewrite Hinputs. count_pieces.
  simpl. lia.
Qed.

Lemma cli_markup_inputs_witness :
  occurrences "<input"
    (Part001.generateComponentHTML
       {| comp_name := "Register"; comp_fields := [usernameField; agreeField];
          comp_menuName := None; comp_buttons := ["Save"; "Cancel"] |}
       Columns2 true) = 2%nat.
Proof.
  apply (cli_markup_inputs
           {| comp_name := "Register";
              comp_fields := [usernameField; agreeField];
              comp_menuName := None; comp_buttons := ["Save"; "Cancel"] |}
           Columns2 true);
    by repeat constructor.
Defined.

(** ** The artifacts of a run of [createproj.ts] *)

Section PathFacts.
Implicit Types s t : string.

Lemma append_inj_l s t t' : s +:+ t = s +:+ t' → t = t'.
Proof.
  induction s as [|c s IH]; [done|]. intros Heq. injection Heq as Heq. auto.
Qed.

Lemma append_eq_length s s' t t' :
  String.length s = String.length s' → s +:+ t = s' +:+ t' →
  s = s' ∧ t = t'.
Proof.
  revert s'; induction s as [|c s IH]; intros [|c' s'] Hlen Heq; try done.
  injection Heq as -> Heq. injection Hlen as Hlen.
  by destruct (IH _ Hlen Heq) as [-> ->].
Qed.

Lemma append_inj_r s s' t : s +:+ t = s' +:+ t → s = s'.
Proof.
  intros Heq. apply (append_eq_length s s' t t); [|done].
  apply (f_equal String.length) in Heq. rewrite !length_append in Heq. lia.
Qed.

(** A name is recovered from [name/name]. *)
Lemma doubled_inj s s' sep : s +:+ sep +:+ s = s' +:+ sep +:+ s' → s = s'.
Proof.
  intros Heq. apply (append_eq_length s s' (sep +:+ s) (sep +:+ s')); [|done].
  apply (f_equal String.length) in Heq. rewrite !length_append in Heq. lia.
Qed.

Lemma elem_of_concat_map {A} (f : A → list string) (l : list A) k :
  k ∈ concat (map f l) ↔ ∃ x, x ∈ l ∧ k ∈ f x.
Proof.
  induction l as [|x l IH]; cbn [map concat].
  - split; [by intros ?%elem_of_nil|]. by intros (x & ?%elem_of_nil & _).
  - rewrite elem_of_app, IH. split.
    + intros [Hk|(y & Hy & Hk)]; [exists x|exists y];
        (split; [|done]); rewrite elem_of_cons; auto.
    + intros (y & [->|Hy]%elem_of_cons & Hk); [by left|right; eauto].
Qed.
End PathFacts.

Section Artifacts.
Import CreateProj CreateProjRun.
Implicit Types (w : World) (spec : Specification) (p k : string).
Implicit Types (c : Component) (cs : list Component).

Lemma componentFile_split p c extension :
  componentFile p c extension =
  p +:+ "/src/app/" +:+
  (toLowerCase (comp_name c) +:+ "/" +:+ toLowerCase (comp_name c)) +:+
  ".component." +:+ extension.
Proof. unfold componentFile, componentDir. by rewrite !append_assoc. Qed.

Lemma componentFile_app p c e e' :
  componentFile p c (e +:+ e') = componentFile p c e +:+ e'.
Proof. unfold componentFile, componentDir. by rewrite !append_assoc. Qed.

(** Two components share a file exactly when their names agree up to case. *)
Lemma componentFile_inj p c c' extension :
  componentFile p c extension = componentFile p c' extension →
  toLowerCase (comp_name c) = toLowerCase (comp_name c').
Proof.
  rewrite !componentFile_split. intros Heq.
  do 2 apply append_inj_l in Heq.
  rewrite <-!append_assoc in Heq. rewrite !(append_assoc _ "/") in Heq.
  do 2 apply append_inj_r in Heq. by apply doubled_inj in Heq.
Qed.

Lemma html_ne_css p c c' : componentFile p c "html" ≠ componentFile p c' "css".
Proof.
  change "html" with ("htm" +:+ "l"). change "css" with ("cs" +:+ "s").
  rewrite !componentFile_app. by apply append_last_ne.
Qed.

Lemma css_ne_html p c c' : componentFile p c "css" ≠ componentFile p c' "html".
Proof. intros Heq. symmetry in Heq. revert Heq. apply html_ne_css. Qed.

Lemma html_not_ts p c : ¬ endsWith "ts" (componentFile p c "html").
Proof.
  intros [before Heq]. revert Heq.
  change "html" with ("htm" +:+ "l"). change "ts" with ("t" +:+ "s").
  rewrite componentFile_app, <-append_assoc. by apply append_last_ne.
Qed.

Lemma css_not_ts p c : ¬ endsWith "ts" (componentFile p c "css").
Proof.
  intros [before Heq]. revert Heq.
  change "css" with ("c" +:+ "s" +:+ "s"). change "ts" with ("t" +:+ "s").
  rewrite !componentFile_app, <-!append_assoc.
  intros Heq%append_inj_r. revert Heq. by apply append_last_ne.
Qed.


(** The files of the application directory itself are no file of a
    component: a component file lies one directory below. *)
Lemma componentFile_below p c extension name :
  noChar "/" name = true →
  componentFile p c extension ≠ appDir p +:+ "/" +:+ name.
Proof.
  intros Hname Heq. unfold componentFile, componentDir, appDir in Heq.
  rewrite !append_assoc in Heq. apply append_inj_l in Heq.
  change ("/src/app" +:+ "/" +:+ name) with ("/src/app/" +:+ name) in Heq.
  apply append_inj_l in Heq. apply (f_equal (noChar "/")) in Heq.
  rewrite !noChar_app, Hname in Heq.
  by destruct (noChar "/" (toLowerCase (comp_name c))).
Qed.


(** *** What the loop leaves at a path *)



Lemma written_createSourceFile k path content w :
  k = path ∨ written k w → written k (createSourceFile path content w).
Proof.
  intros [->|[Hk|Hk]]; [left|left|by right]; cbn.
  - by rewrite lookup_insert_eq.
  - rewrite lookup_insert_is_Some. destruct (decide (path = k)); auto.
Qed.

Lemma written_writeFileSync k path content w :
  k = path ∨ written k w → written k (writeFileSync path content w).
Proof.
  intros [->|[Hk|Hk]]; [right|by left|right]; cbn.
  - by rewrite lookup_insert_eq.
  - rewrite lookup_insert_is_Some. destruct (decide (path = k)); auto.
Qed.

Lemma written_componentStep p b col c w k :
  k ∈ componentFiles p c ∨ written k w →
  written k (componentStep p b col c w).
Proof.
  unfold componentStep, componentFiles.
  rewrite !elem_of_cons, elem_of_nil. intros Hk.
  apply written_writeFileSync. destruct Hk as [[Hk|[Hk|[Hk|[]]]]|Hk]; auto;
    right; apply written_writeFileSync; auto;
    right; apply written_createSourceFile; auto.
Qed.

Lemma written_foldl p b col cs w k :
  (∃ c, c ∈ cs ∧ k ∈ componentFiles p c) ∨ written k w →
  written k (foldl (λ w component, componentStep p b col component w) w cs).
Proof.
  revert w; induction cs as [|x cs IH]; intros w Hk.
  - destruct Hk as [(c & ?%elem_of_nil & _)|Hk]; done.
  - cbn [foldl]. apply IH.
    destruct Hk as [(c & [->|Hc]%elem_of_cons & Hk)|Hk].
    + right. apply written_componentStep. by left.
    + left. eauto.
    + right. apply written_componentStep. by right.
Qed.

Lemma within_createSourceFile dir paths path content w :
  path ∈ paths → within dir paths w →
  within dir paths (createSourceFile path content w).
Proof.
  intros Hpath Hw k. cbn. rewrite lookup_insert_is_Some.
  intros [[<-|[_ Hk]]|Hk]; [done|apply Hw; by left|apply Hw; by right].
Qed.

Lemma within_writeFileSync dir paths path content w :
  path ∈ paths → within dir paths w →
  within dir paths (writeFileSync path content w).
Proof.
  intros Hpath Hw k. cbn. rewrite lookup_insert_is_Some.
  intros [Hk|[Hdir [<-|[_ Hk]]]]; [apply Hw; by left|done|apply Hw; by right].
Qed.

Lemma within_foldl dir paths p b col cs w :
  (∀ c k, c ∈ cs → k ∈ componentFiles p c → k ∈ paths) →
  within dir paths w →
  within dir paths
    (foldl (λ w component, componentStep p b col component w) w cs).
Proof.
  revert w; induction cs as [|x cs IH]; intros w Hcs Hw; [done|].
  cbn [foldl]. apply IH; [intros c k Hc; apply Hcs; by right|].
  assert (Hx : ∀ k, k ∈ componentFiles p x → k ∈ paths)
    by (intros k; apply Hcs; by left).
  unfold componentStep.
  do 2 (apply within_writeFileSync;
        [apply Hx; unfold componentFiles; rewrite !elem_of_cons; auto|]).
  apply within_createSourceFile;
    [apply Hx; unfold componentFiles; rewrite !elem_of_cons; auto|done].
Qed.

Lemma within_abortedWorld spec paths :
  ∀ w, appDir (projectName spec) +:+ "/app.module.ts" ∈ paths →
  within (projectName spec) paths (abortedWorld spec w).
Proof.
  intros w Hmodule. unfold abortedWorld.
  apply within_createSourceFile; [done|].
  intros k [[x Hk]|[Hdir [x Hk]]]; [done|]. cbn in Hk.
  apply map_lookup_filter_Some in Hk as [_ Hk]. cbn in Hk. congruence.
Qed.

Lemma artifactPaths_under spec k :
  k ∈ artifactPaths spec → under (projectName spec) k = true.
Proof.
  unfold artifactPaths, shellPath.
  rewrite elem_of_app, !elem_of_cons, elem_of_nil, elem_of_concat_map.
  intros [[->|[->|[->|[]]]]|(c & _ & Hk)]; try apply under_appDir.
  unfold componentFiles in Hk. rewrite !elem_of_cons, elem_of_nil in Hk.
  destruct Hk as [->|[->|[->|[]]]]; apply under_componentFile.
Qed.
End Artifacts.

(** *** Plain names give plain paths *)

Section PlainPaths.
Import CreateProj CreateProjRun.
Implicit Types (s t p : string) (c : Component) (spec : Specification).

Lemma plainChar_facts (a : ascii) :
  plainChar a = true →
  Ascii.eqb a "/" = false ∧ Ascii.eqb a "." = false ∧
  plainChar (charToLower a) = true.
Proof. by destruct a as [[] [] [] [] [] [] [] []]. Qed.

Lemma allChars_plain_noSlash s :
  allChars plainChar s = true → noChar "/" s = true.
Proof.
  induction s as [|a s IH]; [done|]. cbn [allChars noChar].
  intros [Ha Hs]%andb_true_iff.
  destruct (plainChar_facts a Ha) as (-> & _ & _). by rewrite IH.
Qed.

Lemma allChars_plain_toLowerCase s :
  allChars plainChar s = true → allChars plainChar (toLowerCase s) = true.
Proof.
  induction s as [|a s IH]; [done|]. cbn [allChars toLowerCase].
  intros [Ha Hs]%andb_true_iff.
  destruct (plainChar_facts a Ha) as (_ & _ & ->). by rewrite IH.
Qed.

Lemma plainName_inv s :
  plainName s = true →
  ∃ a s', s = String a s' ∧ plainChar a = true ∧
          allChars plainChar s = true ∧ (String.length s ≤ 64)%nat.
Proof.
  unfold plainName.
  intros [[Hne Hall]%andb_true_iff Hlen%Nat.leb_le]%andb_true_iff.
  destruct s as [|a s']; [done|]. exists a, s'. repeat split; [|done..].
  cbn [allChars] in Hall. by apply andb_true_iff in Hall as [-> _].
Qed.

Lemma plainName_noSlash s : plainName s = true → noChar "/" s = true.
Proof.
  intros (a & s' & _ & _ & Hall & _)%plainName_inv.
  by apply allChars_plain_noSlash.
Qed.

Lemma plainName_toLowerCase s :
  plainName s = true → plainName (toLowerCase s) = true.
Proof.
  intros (a & s' & -> & Ha & Hall & Hlen)%plainName_inv. unfold plainName.
  rewrite allChars_plain_toLowerCase by done.
  rewrite length_toLowerCase. by apply Nat.leb_le in Hlen as ->.
Qed.

(** A name that starts with a plain name is a segment of a path. *)
Lemma plainName_segment s t : plainName s = true → segment (s +:+ t) = true.
Proof.
  intros (a & s' & -> & Ha & _)%plainName_inv.
  destruct (plainChar_facts a Ha) as (_ & Hdot & _).
  unfold segment. rewrite append_cons. cbn [String.eqb]. by rewrite Hdot.
Qed.

Lemma normalPath_join (segments : list string) :
  segments ≠ [] → Forall (λ s, noChar "/" s = true) segments →
  forallb segment segments = true →
  normalPath (join "/" segments) = true.
Proof.
  intros Hne Hslash Hsegments. unfold normalPath.
  by rewrite (split_join "/" segments Hne Hslash).
Qed.

Lemma appFile_join p name :
  appDir p +:+ "/" +:+ name = join "/" [p; "src"; "app"; name].
Proof. unfold appDir. cbn [join]. by rewrite !append_assoc. Qed.

Lemma componentFile_join p c extension :
  componentFile p c extension =
  join "/" [p; "src"; "app"; toLowerCase (comp_name c);
            toLowerCase (comp_name c) +:+ ".component." +:+ extension].
Proof.
  unfold componentFile, componentDir. cbn [join]. by rewrite !append_assoc.
Qed.

Lemma appFile_normal p name :
  plainName p = true → noChar "/" name = true → segment name = true →
  normalPath (appDir p +:+ "/" +:+ name) = true.
Proof.
  intros Hp Hslash Hname. rewrite appFile_join.
  apply normalPath_join; [done| |].
  - repeat constructor; [by apply plainName_noSlash|done].
  - cbn [forallb]. rewrite Hname.
    rewrite <-(append_nil_r p), (plainName_segment p "" Hp). done.
Qed.

Lemma componentFile_normal p c extension :
  plainName p = true → plainName (comp_name c) = true →
  noChar "/" extension = true →
  normalPath (componentFile p c extension) = true.
Proof.
  intros Hp Hc%plainName_toLowerCase Hextension. rewrite componentFile_join.
  apply normalPath_join; [done| |].
  - repeat constructor; try by apply plainName_noSlash.
    rewrite !noChar_app, Hextension. by rewrite plainName_noSlash.
  - cbn [forallb]. rewrite (plainName_segment _ _ Hc).
    rewrite <-(append_nil_r p), (plainName_segment p "" Hp).
    rewrite <-(append_nil_r (toLowerCase (comp_name c))).
    by rewrite (plainName_segment _ "" Hc).
Qed.

Lemma artifactPaths_normal spec k :
  plainSpec spec → k ∈ artifactPaths spec → normalPath k = true.
Proof.
  intros [Hp Hcs]. rewrite Forall_forall in Hcs.
  unfold artifactPaths, shellPath.
  rewrite elem_of_app, !elem_of_cons, elem_of_nil, elem_of_concat_map.
  intros [[->|[->|[->|[]]]]|(c & Hc & Hk)].
  - by apply (appFile_normal _ "app.module.ts").
  - by apply (appFile_normal _ "app-routing.module.ts").
  - by apply (appFile_normal _ "app.component.html").
  - unfold componentFiles in Hk. rewrite !elem_of_cons, elem_of_nil in Hk.
    destruct Hk as [->|[->|[->|[]]]]; apply componentFile_normal; auto.
Qed.
End PlainPaths.

(** X11.  A run of [createproj.ts] on plain names that returns leaves below
    the project directory the artifacts of the specification and nothing
    else: a path below the directory holds a file exactly when it is the
    root module, the routing module, the shell or one of the three files of
    a component.  Whatever the directory held before the run is gone, and
    every artifact is a path, without [.] or [..], below the directory. *)
Theorem generated_tree_is_the_artifacts (spec : Specification)
  (useBootstrap : bool) (columnLayout : ColumnLayout) (w : World) :
  let r := CreateProjRun.generateAngularProjectWithTSMorph spec useBootstrap
             columnLayout w in
  plainSpec spec → r.1 = Returned tt →
  (∀ path, normalPath path = true → under (projectName spec) path = true →
     (is_Some (files r.2 !! path) ↔ path ∈ artifactPaths spec))
  ∧ (∀ path, path ∈ artifactPaths spec →
       under (projectName spec) path = true ∧ normalPath path = true).
Proof.
  intros r Hplain. unfold r. rewrite run_cases.
  destruct (CreateProj.generateAppRoutingModuleContent (components spec))
    as [routing|e]; [|done].
  intros _. cbn [snd]. split;
    [|intros path Hpath; split;
      [by apply artifactPaths_under|by apply (artifactPaths_normal spec)]].
  intros path _ Hpath. unfold generatedWorld.
  set (inner := writeFileSync _ _ _).
  change (files (saveSync inner) !! path)
    with ((project inner ∪ files inner) !! path).
  rewrite lookup_union_is_Some. split.
  - assert (Hin : within (projectName spec) (artifactPaths spec) inner).
    { unfold inner, artifactPaths.
      apply within_writeFileSync; [rewrite elem_of_app, !elem_of_cons; auto|].
      apply within_foldl.
      { intros c k Hc Hk. rewrite elem_of_app, elem_of_concat_map. eauto. }
      apply within_createSourceFile;
        [rewrite elem_of_app, !elem_of_cons; auto|].
      apply within_abortedWorld. rewrite elem_of_app, !elem_of_cons; auto. }
    intros [Hk|Hk]; apply Hin; auto.
  - unfold artifactPaths.
    rewrite elem_of_app, !elem_of_cons, elem_of_nil, elem_of_concat_map.
    intros Hk. apply written_writeFileSync.
    destruct Hk as [[Hk|[Hk|[Hk|[]]]]|Hk]; auto; right; apply written_foldl;
      auto; right; apply written_createSourceFile; auto.
    right. unfold abortedWorld. apply written_createSourceFile. auto.
Qed.

Lemma generated_tree_is_the_artifacts_witness :
  let w := {| files := {[ "my-angular-app/old.txt" := "old" ]};
              project := ∅ |} in
  let r := CreateProjRun.generateAngularProjectWithTSMorph exampleSpec true
             Columns2 w in
  is_Some (files r.2 !! "my-angular-app/src/app/about/about.component.css")
  ∧ ¬ is_Some (files r.2 !! "my-angular-app/old.txt").
Proof.
  intros w r.
  assert (Hplain : plainSpec exampleSpec)
    by (split; [reflexivity|by repeat constructor]).
  destruct (generated_tree_is_the_artifacts exampleSpec true Columns2 w
              Hplain eq_refl) as [Htree _].
  split.
  - apply Htree; [reflexivity..|]. unfold artifactPaths.
    rewrite elem_of_app. right. cbn [map concat components exampleSpec].
    unfold componentFiles. rewrite !elem_of_app, !elem_of_cons. auto 10.
  - intros Hk. apply Htree in Hk; [|reflexivity..]. revert Hk.
    unfold artifactPaths.
    cbn [map concat components exampleSpec]. unfold componentFiles.
    rewrite !elem_of_app, !elem_of_cons, elem_of_nil.
    intros Hk. decompose [or] Hk; try done; discriminate.
Defined.

Section Contents.
Import CreateProj CreateProjRun.
Implicit Types (w : World) (spec : Specification) (p k : string).
Implicit Types (c : Component) (cs : list Component).



End Contents.



(** ** The orchestrator on [ng new] *)

Section RoutingRun.
Import CreateProj.
Variable execSync : string → gmap string string → bool * gmap string string.
Implicit Types (w : World) (spec : Specification) (p k : string).
Implicit Types (c : Component) (cs : list Component).

(** The paths of this generator are those of the other one in the
    directory [./projectName]. *)
Lemma componentFile_routing p c extension :
  CreateProjRouting.componentFile p c extension =
  CreateProjRun.componentFile ("./" +:+ p) c extension.
Proof.
  unfold CreateProjRouting.componentFile, CreateProjRouting.componentDir,
    CreateProjRun.componentFile, CreateProjRun.componentDir.
  by rewrite !append_assoc.
Qed.

Lemma appFile_routing p name :
  "./" +:+ p +:+ "/src/app/" +:+ name =
  CreateProjRun.appDir ("./" +:+ p) +:+ "/" +:+ name.
Proof. unfold CreateProjRun.appDir. by rewrite !append_assoc. Qed.

Lemma html_ne_ts p c c' :
  CreateProjRun.componentFile p c "html" ≠ CreateProjRun.componentFile p c' "ts".
Proof.
  intros Heq. apply (html_not_ts p c). rewrite Heq. apply componentFile_ts.
Qed.

Lemma css_ne_ts p c c' :
  CreateProjRun.componentFile p c "css" ≠ CreateProjRun.componentFile p c' "ts".
Proof.
  intros Heq. apply (css_not_ts p c). rewrite Heq. apply componentFile_ts.
Qed.

(** Two component files are one file only for one extension and for names
    that agree up to case. *)
Lemma componentFile_eq p c c' e e' :
  e ∈ ["ts"; "html"; "css"] → e' ∈ ["ts"; "html"; "css"] →
  CreateProjRun.componentFile p c e = CreateProjRun.componentFile p c' e' →
  e = e' ∧ toLowerCase (comp_name c) = toLowerCase (comp_name c').
Proof.
  rewrite !elem_of_cons, !elem_of_nil.
  intros [->|[->|[->|[]]]] [->|[->|[->|[]]]] Heq;
    try (split; [done|by eapply componentFile_inj]); exfalso; revert Heq.
  - intros Heq. symmetry in Heq. revert Heq. apply html_ne_ts.
  - intros Heq. symmetry in Heq. revert Heq. apply css_ne_ts.
  - apply html_ne_ts.
  - apply html_ne_css.
  - apply css_ne_ts.
  - apply css_ne_html.
Qed.

Lemma forEach_routing p cs w :
  forEach (CreateProjRouting.generateComponent p) cs w =
  (Returned tt, foldl (λ w component, routingStep p component w) w cs).
Proof.
  revert w; induction cs as [|x cs IH]; intros w; [done|].
  cbn [forEach foldl]. unfold mbind, Run_bind.
  change (CreateProjRouting.generateComponent p x w)
    with (Returned tt, routingStep p x w).
  cbv beta iota. apply IH.
Qed.

Lemma foldl_routingStep_files p cs w k :
  (∀ c e, c ∈ cs → e ∈ ["ts"; "html"; "css"] →
     k ≠ CreateProjRouting.componentFile p c e) →
  files (foldl (λ w component, routingStep p component w) w cs) !! k =
  files w !! k.
Proof.
  revert w; induction cs as [|x cs IH]; intros w Hk; [done|].
  cbn [foldl]. rewrite IH by (intros c e Hc; apply Hk; by right).
  cbn. rewrite !lookup_insert_ne; [done|..];
    intros <-; eapply (Hk x); try done; try (by left);
    rewrite !elem_of_cons; auto.
Qed.

Lemma foldl_routingStep_project p cs w :
  project (foldl (λ w component, routingStep p component w) w cs) =
  project w.
Proof.
  revert w; induction cs as [|x cs IH]; intros w; [done|].
  cbn [foldl]. by rewrite IH.
Qed.

Lemma under_routing p c e :
  under ("./" +:+ p) (CreateProjRouting.componentFile p c e) = true.
Proof. rewrite componentFile_routing. apply under_componentFile. Qed.

(** The run aborts when the command fails and on an empty component list. *)
Lemma routing_run_cases spec w :
  CreateProjRouting.generateAngularProjectWithRouting execSync spec w =
  let command :=
    "ng new " +:+ projectName spec +:+ " --routing --style css" in
  let skeleton :=
    {| files := (execSync command (files w)).2; project := project w |} in
  let generated :=
    foldl (λ w component, routingStep (projectName spec) component w)
      skeleton (components spec) in
  if (execSync command (files w)).1
  then match CreateProjRouting.generateAppRoutingModule (components spec) with
       | Returned routing =>
           (Returned tt,
            writeFileSync
              ("./" +:+ projectName spec +:+ "/src/app/app.component.html")
              (CreateProjRouting.appComponentHtml
                 (CreateProjRouting.generateMenuHTML (components spec)
                    (menuType spec))
                 (footerHtml (footerContent spec)))
              (writeFileSync
                 ("./" +:+ projectName spec +:+
                  "/src/app/app-routing.module.ts") routing generated))
       | Thrown e => (Thrown e, generated)
       end
  else (Thrown (ExecError command), skeleton).
Proof.
  unfold CreateProjRouting.generateAngularProjectWithRouting.
  unfold mbind, Run_bind, act, liftOutcome, CreateProjRouting.exec.
  cbv zeta.
  destruct (execSync _ (files w)) as [[] fs]; cbn [fst snd]; [|done].
  rewrite forEach_routing.
  by destruct (CreateProjRouting.generateAppRoutingModule (components spec)).
Qed.
End RoutingRun.

(** X13.  [generateAngularProjectWithRouting] writes nothing of its own when
    [ng new] fails, and nothing either when the component list is empty: the
    run throws and the files are those the command left.  On plain names and
    a component list that is not empty it returns with the routing table in
    [app-routing.module.ts] and the menu, the router placeholder and the
    footer in [app.component.html].  It deletes nothing: a path that held a
    file when the command returned holds one when the run ends. *)
Theorem routing_run_outcomes
  (execSync : string → gmap string string → bool * gmap string string)
  (spec : Specification) (w : World) (succeeded : bool)
  (fs : gmap string string) :
  let run := CreateProjRouting.generateAngularProjectWithRouting execSync
               spec in
  let command :=
    "ng new " +:+ projectName spec +:+ " --routing --style css" in
  let appDir := "./" +:+ projectName spec +:+ "/src/app" in
  let skeleton := {| files := fs; project := project w |} in
  execSync command (files w) = (succeeded, fs) →
  (succeeded = false → run w = (Thrown (ExecError command), skeleton))
  ∧ (succeeded = true → components spec = [] →
       ∃ what, run w = (Thrown (TypeError what), skeleton))
  ∧ (succeeded = true → plainSpec spec → components spec ≠ [] →
       (run w).1 = Returned tt
       ∧ Returned <$>
           files (run w).2 !! (appDir +:+ "/app-routing.module.ts") =
           Some (CreateProjRouting.generateAppRoutingModule (components spec))
       ∧ files (run w).2 !! (appDir +:+ "/app.component.html") =
           Some (CreateProjRouting.appComponentHtml
                   (CreateProjRouting.generateMenuHTML (components spec)
                      (menuType spec))
                   (CreateProj.footerHtml (footerContent spec))))
  ∧ (∀ path, is_Some (fs !! path) → is_Some (files (run w).2 !! path)).
Proof.
  intros run command appDir skeleton Hexec. unfold run, appDir.
  rewrite routing_run_cases. cbv zeta. fold command. rewrite Hexec.
  cbn [fst snd]. fold skeleton. rewrite !append_assoc.
  change ("/src/app" +:+ "/app-routing.module.ts")
    with ("/src/app/" +:+ "app-routing.module.ts").
  change ("/src/app" +:+ "/app.component.html")
    with ("/src/app/" +:+ "app.component.html").
  change ("/src/app/app-routing.module.ts")
    with ("/src/app/" +:+ "app-routing.module.ts").
  change ("/src/app/app.component.html")
    with ("/src/app/" +:+ "app.component.html").
  rewrite <-!(append_assoc "./").
  split; [by intros ->|]. split; [|split].
  - intros -> ->. cbn. eauto.
  - intros -> _ Hsome.
    destruct (CreateProjRouting.generateAppRoutingModule (components spec))
      as [routing|e] eqn:Hrouting; [|by destruct (components spec)].
    cbn [fst snd files writeFileSync]. split; [done|]. split.
    + rewrite lookup_insert_ne, lookup_insert_eq; [done|].
      intros Heq. do 2 apply append_inj_l in Heq. discriminate.
    + by rewrite lookup_insert_eq.
  - intros path Hpath.
    assert (Hloop : is_Some
      (files (foldl (λ w component,
                       routingStep (projectName spec) component w)
                skeleton (components spec)) !! path)).
    { generalize (components spec). intros cs. revert Hpath.
      change fs with (files skeleton). generalize skeleton.
      induction cs as [|x cs IH]; intros w' Hpath; [done|].
      cbn [foldl]. apply IH. cbn. rewrite !lookup_insert_is_Some'. auto. }
    destruct succeeded; [|done].
    destruct (CreateProjRouting.generateAppRoutingModule (components spec));
      cbn [fst snd files writeFileSync]; [|done].
    rewrite !lookup_insert_is_Some'. auto.
Qed.

Lemma routing_run_outcomes_witness :
  let execSync := shellCreating "./my-angular-app/angular.json" "{}" in
  let r := CreateProjRouting.generateAngularProjectWithRouting execSync
             exampleSpec emptyWorld in
  r.1 = Returned tt
  ∧ is_Some (files r.2 !! "./my-angular-app/angular.json")
  ∧ is_Some (files r.2 !! "./my-angular-app/src/app/app.component.html").
Proof.
  intros execSync r.
  assert (Hplain : plainSpec exampleSpec)
    by (split; [reflexivity|by repeat constructor]).
  destruct (routing_run_outcomes execSync exampleSpec emptyWorld true
              {[ "./my-angular-app/angular.json" := "{}" ]} eq_refl)
    as (_ & _ & Hrun & Hkeeps).
  destruct (Hrun eq_refl Hplain) as (Hreturned & _ & Hshell); [done|].
  split; [exact Hreturned|]. split.
  - apply Hkeeps. by exists "{}".
  - eexists. exact Hshell.
Defined.

Section RoutingContents.
Implicit Types (w : World) (spec : Specification) (p k : string).
Implicit Types (c : Component) (cs : list Component).

Lemma appFile_ne_componentFile p c e name :
  noChar "/" name = true →
  "./" +:+ p +:+ "/src/app/" +:+ name ≠ CreateProjRouting.componentFile p c e.
Proof.
  intros Hname Heq. symmetry in Heq. revert Heq.
  rewrite componentFile_routing, appFile_routing.
  by apply componentFile_below.
Qed.

Lemma routing_componentFile_eq p c c' e e' :
  e ∈ ["ts"; "html"; "css"] → e' ∈ ["ts"; "html"; "css"] →
  CreateProjRouting.componentFile p c e =
  CreateProjRouting.componentFile p c' e' →
  e = e' ∧ toLowerCase (comp_name c) = toLowerCase (comp_name c').
Proof. rewrite !componentFile_routing. apply componentFile_eq. Qed.

(** What the loop leaves in a file of [c] when no later component has the
    name of [c] up to case. *)
Lemma foldl_routingStep_later p cs c e w :
  e ∈ ["ts"; "html"; "css"] →
  Forall (λ later, toLowerCase (comp_name later) ≠
                   toLowerCase (comp_name c)) cs →
  files (foldl (λ w component, routingStep p component w) w cs)
    !! CreateProjRouting.componentFile p c e =
  files w !! CreateProjRouting.componentFile p c e.
Proof.
  intros He Hcs. rewrite Forall_forall in Hcs.
  apply foldl_routingStep_files. intros c' e' Hc' He' Heq.
  apply routing_componentFile_eq in Heq as [_ Heq]; [|done..].
  by apply (Hcs c').
Qed.
End RoutingContents.

(** X14.  A run of [generateAngularProjectWithRouting] on plain names that
    got its skeleton returns, and the files of a component then hold what
    the generators give for it, unless a later component has the same name
    up to case: the markup file holds [generateComponentHTML], the
    TypeScript file [generateComponentTS] and the style sheet is empty.
    Neither the routing module nor the shell, which are written afterwards,
    replaces a file of a component. *)
Theorem routing_run_component_files
  (execSync : string → gmap string string → bool * gmap string string)
  (spec : Specification) (w : World) (fs : gmap string string)
  (before after : list Component) (component : Component) :
  plainSpec spec →
  execSync ("ng new " +:+ projectName spec +:+ " --routing --style css")
    (files w) = (true, fs) →
  components spec = before ++ component :: after →
  Forall (λ later, toLowerCase (comp_name later) ≠
                   toLowerCase (comp_name component)) after →
  let r := CreateProjRouting.generateAngularProjectWithRouting execSync spec
             w in
  let file := CreateProjRouting.componentFile (projectName spec) component in
  r.1 = Returned tt
  ∧ files r.2 !! file "html" =
    Some (CreateProjRouting.generateComponentHTML component)
  ∧ files r.2 !! file "ts" =
      Some (CreateProjRouting.generateComponentTS component)
  ∧ files r.2 !! file "css" = Some "".
Proof.
  intros _ Hexec Hcomponents Hafter r file. unfold r, file.
  rewrite routing_run_cases. cbv zeta. rewrite Hexec. cbn [fst snd].
  destruct (CreateProjRouting.generateAppRoutingModule (components spec))
    as [routing|e] eqn:Hrouting;
    [|by rewrite Hcomponents in Hrouting; destruct before].
  clear Hrouting. cbn [fst snd files writeFileSync]. split; [done|].
  change "/src/app/app.component.html"
    with ("/src/app/" +:+ "app.component.html").
  change "/src/app/app-routing.module.ts"
    with ("/src/app/" +:+ "app-routing.module.ts").
  rewrite !(lookup_insert_ne _ ("./" +:+ _))
    by by apply appFile_ne_componentFile.
  rewrite Hcomponents, foldl_app. cbn [foldl].
  rewrite !foldl_routingStep_later by (rewrite ?elem_of_cons; auto).
  cbn [routingStep files writeFileSync].
  assert (Hext : ∀ e e', e ∈ ["ts"; "html"; "css"] →
            e' ∈ ["ts"; "html"; "css"] → e ≠ e' →
            CreateProjRouting.componentFile (projectName spec) component e ≠
            CreateProjRouting.componentFile (projectName spec) component e').
  { intros e e' He He' Hne Heq.
    by apply routing_componentFile_eq in Heq as [Heq _]. }
  split; [|split].
  - rewrite 2!lookup_insert_ne, lookup_insert_eq; [done|..];
      apply Hext; rewrite ?elem_of_cons; auto.
  - rewrite lookup_insert_ne, lookup_insert_eq; [done|].
    apply Hext; rewrite ?elem_of_cons; auto.
  - by rewrite lookup_insert_eq.
Qed.

Lemma routing_run_component_files_witness :
  let spec :=
    {| projectName := "shop";
       components := [plainComponent "About"; plainComponent "Cart";
                      plainComponent "about"];
       menuType := vertical; footerContent := None |} in
  let r := CreateProjRouting.generateAngularProjectWithRouting
             (shellCreating "./shop/angular.json" "{}") spec emptyWorld in
  files r.2 !! "./shop/src/app/about/about.component.ts" =
    Some (CreateProjRouting.generateComponentTS (plainComponent "about"))
  ∧ files r.2 !! "./shop/src/app/cart/cart.component.css" = Some "".
Proof.
  intros spec r.
  assert (Hplain : plainSpec spec)
    by (split; [reflexivity|by repeat constructor]).
  split.
  - apply (routing_run_component_files
             (shellCreating "./shop/angular.json" "{}") spec emptyWorld
             {[ "./shop/angular.json" := "{}" ]}
             [plainComponent "About"; plainComponent "Cart"] []
             (plainComponent "about") Hplain eq_refl eq_refl).
    constructor.
  - apply (routing_run_component_files
             (shellCreating "./shop/angular.json" "{}") spec emptyWorld
             {[ "./shop/angular.json" := "{}" ]}
             [plainComponent "About"] [plainComponent "about"]
             (plainComponent "Cart") Hplain eq_refl eq_refl).
    by repeat constructor.
Defined.

(** ** What the generated modules refer to *)

Section Includes.
Implicit Types s t needle : string.

Lemma startsWith_app_same a needle s :
  startsWith (a +:+ needle) (a +:+ s) = startsWith needle s.
Proof.
  induction a as [|x a IH]; [done|].
  change (Ascii.eqb x x && startsWith (a +:+ needle) (a +:+ s) =
          startsWith needle s).
  by rewrite Ascii.eqb_refl, IH.
Qed.

Lemma includes_here needle s :
  startsWith needle s = true → needle ≠ "" → includes needle s = true.
Proof.
  intros Hstarts Hneedle. unfold includes.
  destruct s as [|x s]; [by destruct needle|].
  cbn [occurrences]. by rewrite Hstarts.
Qed.

Lemma includes_tail needle a s :
  includes needle s = true → includes needle (a +:+ s) = true.
Proof.
  unfold includes. induction a as [|x a IH]; [done|]. intros Hs.
  change (negb (((if startsWith needle (String x (a +:+ s)) then 1 else 0) +
                 occurrences needle (a +:+ s))%nat =? 0)%nat = true).
  specialize (IH Hs). apply negb_true_iff, Nat.eqb_neq in IH.
  apply negb_true_iff, Nat.eqb_neq. lia.
Qed.
End Includes.

Ltac starts_here :=
  rewrite ?append_assoc; repeat rewrite startsWith_app_same; reflexivity.

Ltac find_piece :=
  rewrite ?append_assoc;
  repeat first [ apply includes_here; [solve [starts_here]|done]
               | apply includes_tail ].

(** X15.  What [createproj.ts] generates for a component refers to itself
    consistently.  The three files lie in the directory named after the
    lowercased name; the module declares the class [<name>Component] and
    names the markup file and the style sheet written beside it; the routing
    module imports that class from that module and routes the lowercased
    name to it; and the menu links to that route. *)
Theorem component_references_resolve (projectName : string)
  (component : Component) :
  let lower := toLowerCase (comp_name component) in
  let stem := lower +:+ ".component" in
  let class := comp_name component +:+ "Component" in
  let dir := CreateProjRun.appDir projectName +:+ "/" +:+ lower in
  let module := CreateProj.generateComponentTSContent component in
  (∀ extension,
     CreateProjRun.componentFile projectName component extension =
     dir +:+ "/" +:+ stem +:+ "." +:+ extension)
  ∧ includes ("export class " +:+ class +:+ " ") module = true
  ∧ includes ("templateUrl: './" +:+ stem +:+ ".html'") module = true
  ∧ includes ("styleUrls: ['./" +:+ stem +:+ ".css']") module = true
  ∧ includes ("selector: 'app-" +:+ lower +:+ "'") module = true
  ∧ CreateProj.importLine component =
    "import { " +:+ class +:+ " } from './" +:+ lower +:+ "/" +:+ stem +:+ "';"
  ∧ CreateProj.routeLine component =
    "{ path: '" +:+ lower +:+ "', component: " +:+ class +:+ " }"
  ∧ includes ("routerLink=" +:+ dq +:+ "/" +:+ lower +:+ dq)
      (CreateProj.menuItem component) = true.
Proof.
  intros lower stem class dir module.
  unfold module, dir, class, stem, lower. repeat apply conj.
  - intros extension.
    unfold CreateProjRun.componentFile, CreateProjRun.componentDir,
      CreateProjRun.appDir.
    by rewrite ?append_assoc.
  - unfold CreateProj.generateComponentTSContent.
    change "      export class " with ("      " +:+ "export class ").
    find_piece.
  - unfold CreateProj.generateComponentTSContent.
    change "        templateUrl: './" with ("        " +:+ "templateUrl: './").
    find_piece.
  - unfold CreateProj.generateComponentTSContent.
    change "        styleUrls: ['./" with ("        " +:+ "styleUrls: ['./").
    find_piece.
  - unfold CreateProj.generateComponentTSContent.
    change "        selector: 'app-" with ("        " +:+ "selector: 'app-").
    find_piece.
  - unfold CreateProj.importLine. by rewrite ?append_assoc.
  - unfold CreateProj.routeLine. by rewrite ?append_assoc.
  - unfold CreateProj.menuItem.
    change " routerLink=" with (" " +:+ "routerLink=").
    find_piece.
Qed.

(** X16.  So does what [generateAngularProjectWithRouting] generates, with
    the class named after the capitalised name: [generateComponentTS]
    declares the class that [generateAppRoutingModule] imports and routes
    to, the module names the markup file and the style sheet written beside
    it, and the menu links to the route. *)
Theorem routing_references_resolve (projectName : string)
  (component : Component) :
  let lower := toLowerCase (comp_name component) in
  let stem := lower +:+ ".component" in
  let class := classForm (comp_name component) +:+ "Component" in
  let dir := "./" +:+ projectName +:+ "/src/app/" +:+ lower in
  let module := CreateProjRouting.generateComponentTS component in
  (∀ extension,
     CreateProjRouting.componentFile projectName component extension =
     dir +:+ "/" +:+ stem +:+ "." +:+ extension)
  ∧ includes ("export class " +:+ class +:+ " ") module = true
  ∧ includes ("templateUrl: './" +:+ stem +:+ ".html'") module = true
  ∧ includes ("styleUrls: ['./" +:+ stem +:+ ".css']") module = true
  ∧ CreateProjRouting.importLine component =
    "import { " +:+ class +:+ " } from './" +:+ lower +:+ "/" +:+ stem +:+ "';"
  ∧ CreateProjRouting.routeLine component =
    "  { path: '" +:+ lower +:+ "', component: " +:+ class +:+ " }"
  ∧ includes ("routerLink=" +:+ dq +:+ "/" +:+ lower +:+ dq)
      (CreateProjRouting.menuLink component) = true.
Proof.
  intros lower stem class dir module.
  unfold module, dir, class, stem, lower, classForm. repeat apply conj.
  - intros extension.
    unfold CreateProjRouting.componentFile, CreateProjRouting.componentDir.
    by rewrite ?append_assoc.
  - unfold CreateProjRouting.generateComponentTS, CreateProjRouting.className.
    change "      export class " with ("      " +:+ "export class ").
    find_piece.
  - unfold CreateProjRouting.generateComponentTS.
    change "        templateUrl: './" with ("        " +:+ "templateUrl: './").
    find_piece.
  - unfold CreateProjRouting.generateComponentTS.
    change "        styleUrls: ['./" with ("        " +:+ "styleUrls: ['./").
    find_piece.
  - unfold CreateProjRouting.importLine, CreateProjRouting.className.
    by rewrite ?append_assoc.
  - unfold CreateProjRouting.routeLine, CreateProjRouting.className.
    by rewrite ?append_assoc.
  - unfold CreateProjRouting.menuLink.
    change "<a routerLink=" with ("<a " +:+ "routerLink=").
    find_piece.
Qed.

(** ** The orchestrator of [part_001] *)

Section CliRun.
Variable env : Part001.Collaborators.
Implicit Types (w : World) (spec : Specification) (c : Component).

Lemma forEach_app {A} (f : A → Run unit) (l l' : list A) w :
  forEach f (l ++ l') w =
  match forEach f l w with
  | (Returned _, w') => forEach f l' w'
  | (Thrown e, w') => (Thrown e, w')
  end.
Proof.
  revert w; induction l as [|x l IH]; intros w; [done|].
  cbn [app forEach]. unfold mbind, Run_bind.
  destruct (f x w) as [[[]|e] w']; [apply IH|done].
Qed.

(** A round of the loop returns exactly when its command succeeds. *)
Lemma cli_generateComponent_outcome projectPath b col c w :
  (Part001.generateComponent env projectPath b col c w).1 =
  if (Part001.execSync env ("ng generate component " +:+ comp_name c)
        (files w)).1
  then Returned tt
  else Thrown (ExecError ("ng generate component " +:+ comp_name c)).
Proof.
  unfold Part001.generateComponent, mbind, Run_bind, Part001.exec, act.
  by destruct (Part001.execSync env _ (files w)) as [[] fs].
Qed.

Lemma cli_forEach_returns projectPath b col (cs : list Component) w :
  Forall (λ c, ∀ fs,
            (Part001.execSync env ("ng generate component " +:+ comp_name c)
               fs).1 = true) cs →
  (forEach (Part001.generateComponent env projectPath b col) cs w).1 =
  Returned tt.
Proof.
  intros Hcs. revert w. induction Hcs as [|c cs Hc Hcs IH]; intros w; [done|].
  cbn [forEach]. unfold mbind, Run_bind.
  pose proof (cli_generateComponent_outcome projectPath b col c w) as Hround.
  rewrite Hc in Hround.
  destruct (Part001.generateComponent env projectPath b col c w)
    as [[[]|e] w']; [apply IH|done].
Qed.

Lemma cli_forEach_throws projectPath b col (before after : list Component)
  c w :
  Forall (λ c, ∀ fs,
            (Part001.execSync env ("ng generate component " +:+ comp_name c)
               fs).1 = true) before →
  (∀ fs, (Part001.execSync env ("ng generate component " +:+ comp_name c)
            fs).1 = false) →
  (forEach (Part001.generateComponent env projectPath b col)
     (before ++ c :: after) w).1 =
  Thrown (ExecError ("ng generate component " +:+ comp_name c)).
Proof.
  intros Hbefore Hc. rewrite forEach_app.
  pose proof (cli_forEach_returns projectPath b col before w Hbefore)
    as Hreturns.
  destruct (forEach _ before w) as [[[]|e] w']; [|done].
  cbn [forEach]. unfold mbind, Run_bind.
  pose proof (cli_generateComponent_outcome projectPath b col c w') as Hround.
  rewrite Hc in Hround.
  by destruct (Part001.generateComponent env projectPath b col c w')
    as [[[]|e] w''].
Qed.
(** Without the styled grid the run is the skeleton command, then the
    loop. *)
Lemma cli_run_plain spec col w :
  Part001.generateAngularProjectWithTSMorph env spec false col w =
  match Part001.exec env
          ("npx @angular/cli new " +:+ projectName spec +:+ " --defaults")
          w with
  | (Returned _, w') =>
      forEach
        (Part001.generateComponent env
           (Part001.pathJoin [Part001.cwd env; projectName spec]) false col)
        (components spec) w'
  | (Thrown e, w') => (Thrown e, w')
  end.
Proof.
  unfold Part001.generateAngularProjectWithTSMorph, mbind, Run_bind.
  by destruct (Part001.exec env _ w) as [[[]|e] w'].
Qed.
End CliRun.

(** X17.  A run of [part_001] without the styled grid stops at the first
    command that fails and reports it: when the skeleton command and the
    commands of the components before [component] succeed and the command of
    [component] fails, the run throws the error of that command; when the
    command of every component succeeds, the run returns. *)
Theorem cli_run_stops_at_first_failure (env : Part001.Collaborators)
  (spec : Specification) (columnLayout : ColumnLayout) (w : World) :
  let run := Part001.generateAngularProjectWithTSMorph env spec false
               columnLayout in
  let command := λ component : Component,
    "ng generate component " +:+ comp_name component in
  let succeeds := λ command,
    ∀ fs, (Part001.execSync env command fs).1 = true in
  let fails := λ command,
    ∀ fs, (Part001.execSync env command fs).1 = false in
  succeeds ("npx @angular/cli new " +:+ projectName spec +:+ " --defaults") →
  (Forall (λ component, succeeds (command component)) (components spec) →
     (run w).1 = Returned tt)
  ∧ (∀ before component after,
       components spec = before ++ component :: after →
       Forall (λ earlier, succeeds (command earlier)) before →
       fails (command component) →
       (run w).1 = Thrown (ExecError (command component))).
Proof.
  intros run command succeeds fails Hskeleton.
  unfold run. rewrite cli_run_plain.
  specialize (Hskeleton (files w)). unfold Part001.exec.
  destruct (Part001.execSync env _ (files w)) as [[] fs]; [|done].
  clear Hskeleton. split.
  - intros Hall. by apply cli_forEach_returns.
  - intros before component after -> Hbefore Hfails.
    by apply cli_forEach_throws.
Qed.

Lemma cli_run_stops_at_first_failure_witness :
  (Part001.generateAngularProjectWithTSMorph
     (shellFailingOn "ng generate component About") exampleSpec false
     Columns2 emptyWorld).1 =
  Thrown (ExecError "ng generate component About").
Proof.
  assert (Hskeleton : ∀ fs,
    (Part001.execSync (shellFailingOn "ng generate component About")
       ("npx @angular/cli new " +:+ projectName exampleSpec +:+ " --defaults")
       fs).1 = true) by (intros fs; reflexivity).
  destruct (cli_run_stops_at_first_failure
              (shellFailingOn "ng generate component About") exampleSpec
              Columns2 emptyWorld Hskeleton) as [_ Hstops].
  apply (Hstops [ {| comp_name := "Register"; comp_fields := [];
                     comp_menuName := Some "Users"; comp_buttons := [] |} ]
           (plainComponent "About") []).
  - reflexivity.
  - constructor; [intros fs; reflexivity|constructor].
  - intros fs. reflexivity.
Defined.

(** X18.  With the styled grid, [part_001] installs Bootstrap and registers
    its style sheet in [angular.json] before it generates any component.
    When the install fails, when there is no [angular.json], or when the
    file cannot be edited, the run throws with the files as the commands
    left them and no component generated; otherwise the loop over the
    components starts from those files with [angular.json] replaced by the
    edited one. *)
Theorem bootstrap_precedes_components (env : Part001.Collaborators)
  (spec : Specification) (columnLayout : ColumnLayout) (w : World)
  (fs1 fs2 : gmap string string) (installed : bool) :
  let run := Part001.generateAngularProjectWithTSMorph env spec true
               columnLayout in
  let projectPath := Part001.pathJoin [Part001.cwd env; projectName spec] in
  let angularJsonPath := Part001.pathJoin [projectPath; "angular.json"] in
  let style := "node_modules/bootstrap/dist/css/bootstrap.min.css" in
  let left := {| files := fs2; project := project w |} in
  Part001.execSync env
    ("npx @angular/cli new " +:+ projectName spec +:+ " --defaults")
    (files w) = (true, fs1) →
  Part001.execSync env "npm install bootstrap" fs1 = (installed, fs2) →
  (installed = false →
     run w = (Thrown (ExecError "npm install bootstrap"), left))
  ∧ (installed = true → fs2 !! angularJsonPath = None →
       run w = (Thrown (FileError angularJsonPath), left))
  ∧ (installed = true → ∀ angularJson,
       fs2 !! angularJsonPath = Some angularJson →
       Part001.addStyle env (projectName spec) angularJson style = None →
       ∃ e, run w = (Thrown e, left))
  ∧ (installed = true → ∀ angularJson patched,
       fs2 !! angularJsonPath = Some angularJson →
       Part001.addStyle env (projectName spec) angularJson style =
         Some patched →
       run w =
       forEach (Part001.generateComponent env projectPath true columnLayout)
         (components spec) (writeFileSync angularJsonPath patched left)).
Proof.
  intros run projectPath angularJsonPath style left Hskeleton Hinstall.
  subst run projectPath angularJsonPath style left.
  unfold Part001.generateAngularProjectWithTSMorph, Part001.addBootstrap.
  unfold mbind, Run_bind, Part001.exec, Part001.patchAngularJson.
  rewrite Hskeleton. cbv beta iota zeta delta [files project].
  rewrite Hinstall. cbv beta iota zeta delta [files project].
  split; [by intros ->|]. split; [|split].
  - intros -> Hmissing. by rewrite Hmissing.
  - intros -> angularJson Hfile Hedit. rewrite Hfile, Hedit. eauto.
  - intros -> angularJson patched Hfile Hedit. by rewrite Hfile, Hedit.
Qed.

Lemma bootstrap_precedes_components_witness :
  Part001.generateAngularProjectWithTSMorph (shellFailingOn "") exampleSpec
    true Columns2 emptyWorld =
  (Thrown (FileError "/work/my-angular-app/angular.json"), emptyWorld).
Proof.
  destruct (bootstrap_precedes_components (shellFailingOn "") exampleSpec
              Columns2 emptyWorld ∅ ∅ true eq_refl eq_refl)
    as (_ & Hmissing & _).
  apply Hmissing; reflexivity.
Defined.
